(** * LLDB pretty-printers for [static_string], [static_vector] and
      [static_vector_adapter]: a shallow embedding and its properties

    The two Python modules [tools/pretty_static_string.py] and
    [tools/pretty_static_vector.py] are scripted LLDB formatters.  They talk
    to the debugger through [lldb.SBValue], [lldb.SBType], [lldb.SBTarget]
    and [lldb.SBProcess] handles.  Here

    - a Python [str] is a list of code points ([pystr]);
    - a Python computation that may raise is a value of [py A]: either
      [Ret a] or [Raise e], [e] being the text [str(e)] of the exception;
      [try: ... except Exception: ...] is [catch];
    - a debugger handle is a tree of the answers the debugger gives to the
      methods the scripts call; every answer may itself be an exception,
      since the scripts guard many of these calls with [try]/[except];
    - the debugger answers a question the same way each time it is asked
      while a script runs;
    - the two provider classes are records of their attributes, and their
      methods run in a state-and-exception monad whose state survives an
      exception, as the attributes of a Python object do.

    Python builtins whose code is not part of the repository
    ([bytes.decode('utf-8', errors='replace')], [int(s)], [int(s, 16)])
    are taken through the class [Builtins]. *)

From Stdlib Require Import ZArith List String Ascii Lia Bool.
From Stdlib Require Import Strings.Byte.
From Stdlib Require Import DecimalString.
Import ListNotations.
Local Open Scope Z_scope.

Set Implicit Arguments.
Set Warnings "-register-all".

(** ** Python strings *)

Module PyStr.

(** One Unicode code point. *)
Definition char := N.

Definition pystr := list char.

(** A literal of the script, written in ASCII. *)
Fixpoint lit (s : string) : pystr :=
  match s with
  | EmptyString => []
  | String a r => N_of_ascii a :: lit r
  end.

Definition char_eqb (a b : char) : bool := N.eqb a b.

Fixpoint eqb (s t : pystr) : bool :=
  match s, t with
  | [], [] => true
  | a :: s', b :: t' => char_eqb a b && eqb s' t'
  | _, _ => false
  end.

(** [s.startswith(p)] *)
Fixpoint startswith (s p : pystr) : bool :=
  match p, s with
  | [], _ => true
  | b :: p', a :: s' => char_eqb a b && startswith s' p'
  | _ :: _, [] => false
  end.

(** [str.isspace] on one code point: the characters [str.strip()] removes
    when called without an argument. *)
Definition isspace (c : char) : bool :=
  let c := Z.of_N c in
  ((9 <=? c) && (c <=? 13)) || ((28 <=? c) && (c <=? 32))
  || (c =? 133) || (c =? 160) || (c =? 5760)
  || ((8192 <=? c) && (c <=? 8202))
  || (c =? 8232) || (c =? 8233) || (c =? 8239) || (c =? 8287)
  || (c =? 12288).

Fixpoint lstrip (s : pystr) : pystr :=
  match s with
  | c :: r => if isspace c then lstrip r else s
  | [] => []
  end.

(** [s.strip()] *)
Definition strip (s : pystr) : pystr := rev (lstrip (rev (lstrip s))).

(** [s.replace(old, new)] for a one-character [old], the only use the
    scripts make of it. *)
Definition replace1 (old : char) (new : pystr) (s : pystr) : pystr :=
  flat_map (fun c => if char_eqb c old then new else [c]) s.

(** [sep.join(parts)] *)
Fixpoint join (sep : pystr) (parts : list pystr) : pystr :=
  match parts with
  | [] => []
  | [p] => p
  | p :: rest => p ++ sep ++ join sep rest
  end.

(** [str(n)] for a Python [int]: what an f-string inserts for [{n}]. *)
Definition of_int (n : Z) : pystr := lit (NilZero.string_of_int (Z.to_int n)).

(** The double quote, the backslash and the horizontal ellipsis. *)
Definition dquote : char := 34%N.
Definition backslash : char := 92%N.
Definition ellipsis : char := 8230%N.

End PyStr.
Import PyStr.

(** ** Python exceptions *)

Inductive py (A : Type) : Type :=
| Ret (a : A)
| Raise (e : pystr).
Arguments Ret {A} a.
Arguments Raise {A} e.

Definition bind {A B} (m : py A) (k : A -> py B) : py B :=
  match m with
  | Ret a => k a
  | Raise e => Raise e
  end.

(** [try: m  except Exception as e: h e] *)
Definition catch {A} (m : py A) (h : pystr -> py A) : py A :=
  match m with
  | Ret a => Ret a
  | Raise e => h e
  end.

Declare Scope py_scope.
Delimit Scope py_scope with py.
Notation "x <- m ;; k" := (bind m (fun x => k))
  (at level 61, m at next level, right associativity) : py_scope.
Notation "m ;;; k" := (bind m (fun _ => k))
  (at level 61, right associativity) : py_scope.
Local Open Scope py_scope.

(** Short-circuit [a and b], [a or b] on computations. *)
Definition and_then (a b : py bool) : py bool :=
  x <- a ;; if x then b else Ret false.
Definition or_else (a b : py bool) : py bool :=
  x <- a ;; if x then Ret true else b.
Definition py_not (a : py bool) : py bool := x <- a ;; Ret (negb x).

(** ** Python builtins used by the scripts *)

Class Builtins := {
  (** [b.decode('utf-8', errors='replace')] *)
  decode_utf8 : list byte -> py pystr;
  (** [int(s)] *)
  int_of_str : pystr -> py Z;
  (** [int(s, 16)] *)
  int_of_str16 : pystr -> py Z
}.

(** [b.decode('latin1', errors='replace')]: one character per byte. *)
Definition decode_latin1 (b : list byte) : py pystr :=
  Ret (map (fun x => Byte.to_N x) b).

(** ** Debugger handles *)

(** [lldb.SBType].  [SBType_invalid] is the default-constructed, invalid
    handle; [SBType_obj] lists the answers of a handle the debugger made. *)
Inductive SBType : Type :=
| SBType_invalid
| SBType_obj
    (IsValid : py bool)
    (GetByteSize : py Z)
    (GetName : py (option pystr))
    (GetTemplateArgumentType : Z -> py SBType)
    (GetTemplateArgumentAsUnsigned : Z -> py Z).

Module Ty.
Definition IsValid (t : SBType) : py bool :=
  match t with
  | SBType_invalid => Ret false
  | SBType_obj v _ _ _ _ => v
  end.
Definition GetByteSize (t : SBType) : py Z :=
  match t with
  | SBType_invalid => Ret 0
  | SBType_obj _ s _ _ _ => s
  end.
Definition GetName (t : SBType) : py (option pystr) :=
  match t with
  | SBType_invalid => Ret None
  | SBType_obj _ _ n _ _ => n
  end.
Definition GetTemplateArgumentType (t : SBType) (i : Z) : py SBType :=
  match t with
  | SBType_invalid => Ret SBType_invalid
  | SBType_obj _ _ _ f _ => f i
  end.
Definition GetTemplateArgumentAsUnsigned (t : SBType) (i : Z) : py Z :=
  match t with
  | SBType_invalid => Ret 0
  | SBType_obj _ _ _ _ f => f i
  end.
End Ty.

(** [lldb.SBProcess]: [ReadMemory addr size error] answers with the data
    (or [None]) and with what [error.Fail()] says afterwards. *)
Record SBProcess : Type := {
  ReadMemory : Z -> Z -> py (option (list byte) * bool)
}.

Record SBTarget : Type := {
  GetProcess : py SBProcess
}.

(** The binding of [ReadMemory] allocates the buffer before the call and
    raises [ValueError] with this text for a size that is not positive. *)
Definition positive_integer_expected : pystr :=
  lit "Positive integer expected".

(** The target of a handle that has none: its process reads nothing. *)
Definition SBTarget_invalid : SBTarget :=
  {| GetProcess :=
       Ret {| ReadMemory := fun _ size =>
                if size <=? 0 then Raise positive_integer_expected
                else Ret (None, true) |} |}.

(** The largest address, [lldb.LLDB_INVALID_ADDRESS]. *)
Definition LLDB_INVALID_ADDRESS : Z := 2 ^ 64 - 1.

(** [lldb.SBValue].  [SBValue_invalid] is [lldb.SBValue()]. *)
Inductive SBValue : Type :=
| SBValue_invalid
| SBValue_obj
    (IsValid : py bool)
    (GetChildMemberWithName : pystr -> py SBValue)
    (GetNumChildren : py Z)
    (GetChildAtIndex : Z -> py SBValue)
    (IsBaseClass : py bool)
    (GetValueAsUnsigned : Z -> py Z)
    (GetValue : py (option pystr))
    (GetSummary : py (option pystr))
    (Dereference : py SBValue)
    (AddressOf : py SBValue)
    (GetLoadAddress : py Z)
    (GetType : py SBType)
    (GetTarget : py SBTarget)
    (CreateValueFromAddress : pystr -> Z -> SBType -> py SBValue).

Module Val.
Definition IsValid (v : SBValue) : py bool :=
  match v with
  | SBValue_invalid => Ret false
  | SBValue_obj x _ _ _ _ _ _ _ _ _ _ _ _ _ => x
  end.
Definition GetChildMemberWithName (v : SBValue) (n : pystr) : py SBValue :=
  match v with
  | SBValue_invalid => Ret SBValue_invalid
  | SBValue_obj _ x _ _ _ _ _ _ _ _ _ _ _ _ => x n
  end.
Definition GetNumChildren (v : SBValue) : py Z :=
  match v with
  | SBValue_invalid => Ret 0
  | SBValue_obj _ _ x _ _ _ _ _ _ _ _ _ _ _ => x
  end.
Definition GetChildAtIndex (v : SBValue) (i : Z) : py SBValue :=
  match v with
  | SBValue_invalid => Ret SBValue_invalid
  | SBValue_obj _ _ _ x _ _ _ _ _ _ _ _ _ _ => x i
  end.
Definition IsBaseClass (v : SBValue) : py bool :=
  match v with
  | SBValue_invalid => Ret false
  | SBValue_obj _ _ _ _ x _ _ _ _ _ _ _ _ _ => x
  end.
Definition GetValueAsUnsigned (v : SBValue) (d : Z) : py Z :=
  match v with
  | SBValue_invalid => Ret d
  | SBValue_obj _ _ _ _ _ x _ _ _ _ _ _ _ _ => x d
  end.
Definition GetValue (v : SBValue) : py (option pystr) :=
  match v with
  | SBValue_invalid => Ret None
  | SBValue_obj _ _ _ _ _ _ x _ _ _ _ _ _ _ => x
  end.
Definition GetSummary (v : SBValue) : py (option pystr) :=
  match v with
  | SBValue_invalid => Ret None
  | SBValue_obj _ _ _ _ _ _ _ x _ _ _ _ _ _ => x
  end.
Definition Dereference (v : SBValue) : py SBValue :=
  match v with
  | SBValue_invalid => Ret SBValue_invalid
  | SBValue_obj _ _ _ _ _ _ _ _ x _ _ _ _ _ => x
  end.
Definition AddressOf (v : SBValue) : py SBValue :=
  match v with
  | SBValue_invalid => Ret SBValue_invalid
  | SBValue_obj _ _ _ _ _ _ _ _ _ x _ _ _ _ => x
  end.
Definition GetLoadAddress (v : SBValue) : py Z :=
  match v with
  | SBValue_invalid => Ret LLDB_INVALID_ADDRESS
  | SBValue_obj _ _ _ _ _ _ _ _ _ _ x _ _ _ => x
  end.
Definition GetType (v : SBValue) : py SBType :=
  match v with
  | SBValue_invalid => Ret SBType_invalid
  | SBValue_obj _ _ _ _ _ _ _ _ _ _ _ x _ _ => x
  end.
Definition GetTarget (v : SBValue) : py SBTarget :=
  match v with
  | SBValue_invalid => Ret SBTarget_invalid
  | SBValue_obj _ _ _ _ _ _ _ _ _ _ _ _ x _ => x
  end.
Definition CreateValueFromAddress (v : SBValue) (name : pystr) (addr : Z)
    (t : SBType) : py SBValue :=
  match v with
  | SBValue_invalid => Ret SBValue_invalid
  | SBValue_obj _ _ _ _ _ _ _ _ _ _ _ _ _ x => x name addr t
  end.
End Val.

(** Truth value of an object that may be [None]: LLDB handles define
    [__bool__] as [IsValid()], and [None] is false. *)
Definition truthy (o : option SBValue) : py bool :=
  match o with
  | None => Ret false
  | Some v => Val.IsValid v
  end.

Definition truthy_type (o : option SBType) : py bool :=
  match o with
  | None => Ret false
  | Some t => Ty.IsValid t
  end.

(** [x = ...; if x and x.IsValid(): k x  else: otherwise], for an [x] that
    may be [None]: its truth value is asked first, then [IsValid()]. *)
Definition if_valid {A} (o : option SBValue) (k : SBValue -> py A)
    (otherwise : py A) : py A :=
  match o with
  | None => otherwise
  | Some v =>
      ok <- and_then (Val.IsValid v) (Val.IsValid v) ;;
      if ok then k v else otherwise
  end.

(** [if x: k x  else: otherwise], for an [x] that may be [None]. *)
Definition if_truthy {A} (o : option SBValue) (k : SBValue -> py A)
    (otherwise : py A) : py A :=
  match o with
  | None => otherwise
  | Some v => ok <- Val.IsValid v ;; if ok then k v else otherwise
  end.

(** [range(n)]: the indices a [for] loop visits. *)
Definition range (n : Z) : list Z := map Z.of_nat (seq 0 (Z.to_nat n)).

(** ** [pretty_static_string.py] *)

Module StaticString.

(** [_find_member_recursive]: the own member first, then the base-class
    children in order (lines 7-19).  The loop runs over the children of a
    handle the debugger made; [lldb.SBValue()] has none. *)
Fixpoint _find_member_recursive (valobj : SBValue) (name : pystr)
    {struct valobj} : py (option SBValue) :=
  m <- Val.GetChildMemberWithName valobj name ;;
  ok <- and_then (Val.IsValid m) (Val.IsValid m) ;;
  if ok then Ret (Some m) else
  n <- Val.GetNumChildren valobj ;;
  match valobj with
  | SBValue_invalid => Ret None
  | SBValue_obj _ _ _ GetChildAtIndex _ _ _ _ _ _ _ _ _ _ =>
      (fix loop (idx : list Z) : py (option SBValue) :=
         match idx with
         | [] => Ret None
         | i :: rest =>
             match GetChildAtIndex i with
             | Raise e => Raise e
             | Ret child =>
                 base <- and_then (Val.IsValid child)
                           (and_then (Val.IsValid child)
                              (Val.IsBaseClass child)) ;;
                 if base then
                   r <- _find_member_recursive child name ;;
                   found <- and_then (truthy r) (truthy r) ;;
                   if found then Ret r else loop rest
                 else loop rest
             end
         end) (range n)
  end.

(** [b.find(b"\x00")], counting from [i]. *)
Fixpoint find_nul_from (i : Z) (b : list byte) : Z :=
  match b with
  | [] => -1
  | y :: r => if Byte.eqb y x00 then i else find_nul_from (i + 1) r
  end.
Definition find_nul (b : list byte) : Z := find_nul_from 0 b.

(** Lines 61-63: the bytes before the first NUL, all of them when there
    is none. *)
Definition nul_truncate (b : list byte) : list byte :=
  let nul := find_nul b in
  if negb (nul =? -1) then firstn (Z.to_nat nul) b else b.

(** Lines 71-73: backslash, newline, carriage return and tab are escaped,
    then the text is cut to 200 characters and an ellipsis. *)
Definition escape (s : pystr) : pystr :=
  replace1 9%N (lit "\t")
    (replace1 13%N (lit "\r")
       (replace1 10%N (lit "\n")
          (replace1 backslash [backslash; backslash] s))).

Definition display (s : pystr) : pystr :=
  let s_disp := escape s in
  if 200 <? Z.of_nat (List.length s_disp)
  then firstn 200 s_disp ++ [ellipsis]
  else s_disp.

Section WithBuiltins.
Context {B : Builtins}.

(** Lines 65-68: UTF-8 with replacement, Latin-1 when that raises. *)
Definition decode (b : list byte) : py pystr :=
  catch (decode_utf8 b) (fun _ => decode_latin1 b).

(** The sanity clamp of lines 42-46. *)
Definition clamp_length (head_addr tail_addr cap : Z) : Z :=
  let length := tail_addr - head_addr in
  let length := if negb (cap =? 0) then Z.min length cap else length in
  Z.max 0 (Z.min length (Z.shiftl 1 31)).

(** The body of the [try] of [static_string_summary] (lines 24-75).
    [ReadMemory] hands back [bytes], so that [b = data]. *)
Definition static_string_summary_try (valobj : SBValue) : py pystr :=
  target <- Val.GetTarget valobj ;;
  process <- GetProcess target ;;
  head <- _find_member_recursive valobj (lit "head_") ;;
  tail <- _find_member_recursive valobj (lit "tail_") ;;
  maxl <- _find_member_recursive valobj (lit "max_length_") ;;
  let not_found := Ret (lit "<static_string: layout not found>") in
  if_truthy head (fun head =>
  if_truthy tail (fun tail =>
  if_truthy maxl (fun maxl =>
    head_addr <- Val.GetValueAsUnsigned head 0 ;;
    tail_addr <- Val.GetValueAsUnsigned tail 0 ;;
    cap <- Val.GetValueAsUnsigned maxl 0 ;;
    if (head_addr =? 0) || (tail_addr =? 0) || (tail_addr <? head_addr)
    then Ret ([dquote; dquote] ++ lit " len=0 cap=" ++ of_int cap)
    else
      let length := clamp_length head_addr tail_addr cap in
      let preview_len := Z.min length 1024 in
      r <- ReadMemory process head_addr preview_len ;;
      match r with
      | (Some data, false) =>
          let b := nul_truncate data in
          s <- decode b ;;
          Ret ([dquote] ++ display s ++ [dquote] ++ lit " len="
                 ++ of_int length ++ lit " cap=" ++ of_int cap)
      | _ =>
          Ret (lit "<static_string: unreadable memory> len="
                 ++ of_int length ++ lit " cap=" ++ of_int cap)
      end)
    not_found) not_found) not_found.

(** [static_string_summary] (lines 22-77). *)
Definition static_string_summary (valobj : SBValue) : py pystr :=
  catch (static_string_summary_try valobj)
    (fun e => Ret (lit "<static_string: error " ++ e ++ lit ">")).

End WithBuiltins.

End StaticString.

(** ** [pretty_static_vector.py] *)

(** Attributes of a Python object outlive an exception raised by one of
    its methods: a method is a function from the object to an outcome and
    the object as the method left it. *)
Definition method (S A : Type) : Type := S -> py A * S.

Definition retS {S A} (a : A) : method S A := fun s => (Ret a, s).
Definition bindS {S A B} (m : method S A) (k : A -> method S B) : method S B :=
  fun s =>
    match m s with
    | (Ret a, s') => k a s'
    | (Raise e, s') => (Raise e, s')
    end.
Definition lift {S A} (m : py A) : method S A := fun s => (m, s).
Definition attr {S A} (f : S -> A) : method S A := fun s => (Ret (f s), s).
Definition assign {S} (f : S -> S) : method S unit := fun s => (Ret tt, f s).

Declare Scope method_scope.
Delimit Scope method_scope with method.
Notation "x <- m ;; k" := (bindS m (fun x => k))
  (at level 61, m at next level, right associativity) : method_scope.
Notation "m ;;; k" := (bindS m (fun _ => k))
  (at level 61, right associativity) : method_scope.

(** An attribute that is read as a number: [None] raises [TypeError]. *)
Definition as_int (o : option Z) : py Z :=
  match o with
  | Some z => Ret z
  | None => Raise (lit "TypeError")
  end.

Module StaticVector.

(** [_find_member_recursive] of this module: the direct member only
    (lines 4-13). *)
Definition _find_member_recursive (valobj : SBValue) (name : pystr)
    : py (option SBValue) :=
  m <- Val.GetChildMemberWithName valobj name ;;
  ok <- and_then (Val.IsValid m) (Val.IsValid m) ;;
  if ok then Ret (Some m) else Ret None.

(** The expression [x.GetValueAsUnsigned(0) if (x and x.IsValid()) else 0]
    of lines 126, 153, 213 and 251. *)
Definition unsigned_or_zero (x : option SBValue) : py Z :=
  if_valid x (fun x => Val.GetValueAsUnsigned x 0) (Ret 0).

(** [_get_template_elem_type] (lines 66-71). *)
Definition _get_template_elem_type (valobj : SBValue) : py (option SBType) :=
  ty <- Val.GetType valobj ;;
  catch (t <- Ty.GetTemplateArgumentType ty 0 ;; Ret (Some t))
        (fun _ => Ret None).

(** The expression [t.GetByteSize() if t else 0] of lines 111, 117, 161,
    195, 201 and 249. *)
Definition byte_size_or_zero (t : option SBType) : py Z :=
  match t with
  | None => Ret 0
  | Some ty => ok <- Ty.IsValid ty ;; if ok then Ty.GetByteSize ty else Ret 0
  end.

(** [m and m.IsValid() and m.GetNumChildren() > 0] *)
Definition has_elements (m : SBValue) : py bool :=
  and_then (Val.IsValid m)
    (and_then (Val.IsValid m) (n <- Val.GetNumChildren m ;; Ret (0 <? n))).

(** [_get_arr_first_byte_addr] (lines 74-86). *)
Definition _get_arr_first_byte_addr (arr_val : SBValue) : py Z :=
  m_elems <- Val.GetChildMemberWithName arr_val (lit "_M_elems") ;;
  c <- has_elements m_elems ;;
  if c then
    first <- Val.GetChildAtIndex m_elems 0 ;;
    Val.GetLoadAddress first
  else
    elems <- Val.GetChildMemberWithName arr_val (lit "__elems_") ;;
    c <- has_elements elems ;;
    if c then
      first <- Val.GetChildAtIndex elems 0 ;;
      Val.GetLoadAddress first
    else
      a <- Val.AddressOf arr_val ;;
      Val.GetLoadAddress a.

(** [_get_arr_num_bytes] (lines 89-104). *)
Definition _get_arr_num_bytes (arr_val : SBValue) : py Z :=
  m_elems <- Val.GetChildMemberWithName arr_val (lit "_M_elems") ;;
  c <- and_then (Val.IsValid m_elems) (Val.IsValid m_elems) ;;
  if c then Val.GetNumChildren m_elems
  else
    elems <- Val.GetChildMemberWithName arr_val (lit "__elems_") ;;
    c <- and_then (Val.IsValid elems) (Val.IsValid elems) ;;
    if c then Val.GetNumChildren elems
    else
      catch (t <- Val.GetType arr_val ;;
             Ty.GetTemplateArgumentAsUnsigned t 1)
            (fun _ => Ret 0).

(** The preview loop of lines 171-180 and 257-265. *)
Fixpoint preview_parts (valobj : SBValue) (base elem_sz : Z)
    (elem_type : SBType) (idx : list Z) : py (list pystr) :=
  match idx with
  | [] => Ret []
  | i :: rest =>
      let addr := base + i * elem_sz in
      sbval <- Val.CreateValueFromAddress valobj (lit "tmp") addr elem_type ;;
      disp <- Val.GetValue sbval ;;
      disp <- match disp with
              | Some d => Ret (Some d)
              | None => Val.GetSummary sbval
              end ;;
      disp <- match disp with
              | Some d => Ret d
              | None =>
                  n <- Ty.GetName elem_type ;;
                  Ret match n with
                      | Some (c :: r) => c :: r
                      | _ => lit "?"
                      end
              end ;;
      parts <- preview_parts valobj base elem_sz elem_type rest ;;
      Ret (disp :: parts)
  end.

(** Lines 169-184 and 255-269: up to four elements between brackets,
    with an ellipsis when there are more. *)
Definition render_preview (valobj : SBValue) (base elem_sz : Z)
    (elem_type : SBType) (size : Z) : py pystr :=
  let count := Z.min 4 size in
  parts <- preview_parts valobj base elem_sz elem_type (range count) ;;
  if count <? size
  then Ret (lit " [" ++ join (lit ", ") parts ++ lit ", " ++ [ellipsis] ++ lit "]")
  else Ret (lit " [" ++ join (lit ", ") parts ++ lit "]").

(** The body of the [try] of [StaticVectorSummary] (lines 152-186). *)
Definition StaticVectorSummary_try (valobj : SBValue) : py pystr :=
  szm <- _find_member_recursive valobj (lit "elementsCount") ;;
  size <- unsigned_or_zero szm ;;
  arr <- _find_member_recursive valobj (lit "arr") ;;
  if_valid arr (fun arr =>
    elem_type <- _get_template_elem_type valobj ;;
    elem_sz <- byte_size_or_zero elem_type ;;
    total_bytes <- _get_arr_num_bytes arr ;;
    let cap := if negb (elem_sz =? 0) then total_bytes / elem_sz else 0 in
    preview <-
      match elem_type with
      | Some t =>
          c <- and_then (Ret (0 <? size))
                 (and_then (Ty.IsValid t) (Ty.IsValid t)) ;;
          if c then
            base <- _get_arr_first_byte_addr arr ;;
            render_preview valobj base elem_sz t size
          else Ret []
      | None => Ret []
      end ;;
    Ret (lit "static_vector(size=" ++ of_int size ++ lit ", cap="
           ++ of_int cap ++ lit ")" ++ preview))
    (Ret (lit "static_vector(size=" ++ of_int size ++ lit ")")).

(** [StaticVectorSummary] (lines 150-188). *)
Definition StaticVectorSummary (valobj : SBValue) : py pystr :=
  catch (StaticVectorSummary_try valobj)
    (fun e => Ret (lit "<static_vector: error " ++ e ++ lit ">")).

(** The label [f"[{index}]"] of a synthetic child. *)
Definition child_name (index : Z) : pystr :=
  lit "[" ++ of_int index ++ lit "]".

(** *** [class StaticVectorSynthProvider] (lines 107-147) *)
Module StaticVectorSynthProvider.

Record t : Type := mk {
  valobj : SBValue;
  _elem_type : option SBType;
  _elem_size : Z;
  _data_addr : option Z;
  _size : option Z
}.

Definition set_elem_type x (s : t) : t :=
  mk (valobj s) x (_elem_size s) (_data_addr s) (_size s).
Definition set_elem_size x (s : t) : t :=
  mk (valobj s) (_elem_type s) x (_data_addr s) (_size s).
Definition set_data_addr x (s : t) : t :=
  mk (valobj s) (_elem_type s) (_elem_size s) x (_size s).
Definition set_size x (s : t) : t :=
  mk (valobj s) (_elem_type s) (_elem_size s) (_data_addr s) x.

Local Open Scope method_scope.

Definition __init__ (v : SBValue) : py t :=
  (elem_type <- _get_template_elem_type v ;;
   elem_size <- byte_size_or_zero elem_type ;;
   Ret (mk v elem_type elem_size None None))%py.

Definition update : method t unit :=
  self <- attr id ;;
  elem_type <- lift (_get_template_elem_type (valobj self)) ;;
  assign (set_elem_type elem_type) ;;;
  elem_size <- lift (byte_size_or_zero elem_type) ;;
  assign (set_elem_size elem_size) ;;;
  assign (set_data_addr None) ;;;
  assign (set_size None).

Definition _compute_layout : method t unit :=
  self <- attr id ;;
  match _data_addr self, _size self with
  | Some _, Some _ => retS tt
  | _, _ =>
      szm <- lift (_find_member_recursive (valobj self) (lit "elementsCount")) ;;
      size <- lift (unsigned_or_zero szm) ;;
      assign (set_size (Some size)) ;;;
      arr <- lift (_find_member_recursive (valobj self) (lit "arr")) ;;
      data_addr <- lift (if_valid arr _get_arr_first_byte_addr (Ret 0)) ;;
      assign (set_data_addr (Some data_addr))
  end.

Definition num_children : method t Z :=
  _compute_layout ;;;
  self <- attr id ;;
  lift (as_int (_size self)).

Definition get_child_at_index (index : Z) : method t SBValue :=
  _compute_layout ;;;
  self <- attr id ;;
  lift (
    out <- or_else (Ret (index <? 0))
            (or_else (n <- as_int (_size self) ;; Ret (n <=? index))
               (or_else (py_not (truthy_type (_elem_type self)))
                  (Ret match _data_addr self with
                       | Some a => a =? 0
                       | None => false
                       end))) ;;
    if out then Ret SBValue_invalid else
    base <- as_int (_data_addr self) ;;
    let addr := base + index * _elem_size self in
    match _elem_type self with
    | Some ty =>
        Val.CreateValueFromAddress (valobj self) (child_name index) addr ty
    | None => Raise (lit "TypeError")
    end)%py.

Definition has_children : method t bool :=
  _compute_layout ;;;
  self <- attr id ;;
  lift (n <- as_int (_size self) ;; Ret (0 <? n))%py.

End StaticVectorSynthProvider.

(** The attempt of lines 33-35 and 48-50: dereference and, when the
    result is valid, read it.  [None] when the result is not valid. *)
Definition deref_read (sbval : SBValue) (default : Z) : py (option Z) :=
  d <- Val.Dereference sbval ;;
  ok <- and_then (Val.IsValid d) (Val.IsValid d) ;;
  if ok then z <- Val.GetValueAsUnsigned d default ;; Ret (Some z)
  else Ret None.

(** The [try] of lines 40-57: [Some z] when it returns [z], [None] when
    control leaves it without a [return]. *)
Definition parse_text {B : Builtins} (sbval : SBValue) (default : Z)
    : py (option Z) :=
  s <- Val.GetValue sbval ;;
  match s with
  | None => Ret None
  | Some s =>
      let s := strip s in
      if 0 <? Z.of_nat (List.length s) then
        if startswith s (lit "0x") || startswith s (lit "-0x") then
          r <- catch (deref_read sbval default) (fun _ => Ret None) ;;
          match r with
          | Some z => Ret (Some z)
          | None => z <- int_of_str16 s ;; Ret (Some z)
          end
        else z <- int_of_str s ;; Ret (Some z)
      else Ret None
  end.

(** [_read_unsigned_value] (lines 16-63). *)
Definition _read_unsigned_value {B : Builtins} (sbval : option SBValue)
    (default : Z) : py Z :=
  match sbval with
  | None => Ret default
  | Some v =>
      quit <- catch (or_else (py_not (Val.IsValid v))
                       (py_not (Val.IsValid v)))
                    (fun _ => Ret true) ;;
      if (quit : bool) then Ret default else
      r1 <- catch (deref_read v default) (fun _ => Ret None) ;;
      match r1 with
      | Some z => Ret z
      | None =>
          r2 <- catch (parse_text v default) (fun _ => Ret None) ;;
          match r2 with
          | Some z => Ret z
          | None =>
              catch (Val.GetValueAsUnsigned v default)
                    (fun _ => Ret default)
          end
      end
  end.

(** The body of the [try] of [StaticVectorAdapterSummary]
    (lines 239-271). *)
Definition StaticVectorAdapterSummary_try {B : Builtins} (valobj : SBValue)
    : py pystr :=
  szm <- _find_member_recursive valobj (lit "elements_count_") ;;
  size <- _read_unsigned_value szm 0 ;;
  capm <- _find_member_recursive valobj (lit "max_elements_count_") ;;
  cap <- _read_unsigned_value capm 0 ;;
  elem_type <- _get_template_elem_type valobj ;;
  elem_sz <- byte_size_or_zero elem_type ;;
  ptr <- _find_member_recursive valobj (lit "elements_") ;;
  base <- unsigned_or_zero ptr ;;
  preview <-
    match elem_type with
    | Some t =>
        c <- and_then (Ret (0 <? size))
               (and_then (Ty.IsValid t)
                  (and_then (Ty.IsValid t)
                     (Ret (negb (base =? 0) && (0 <? elem_sz))))) ;;
        if c then render_preview valobj base elem_sz t size else Ret []
    | None => Ret []
    end ;;
  Ret (lit "static_vector_adapter(size=" ++ of_int size ++ lit ", cap="
         ++ of_int cap ++ lit ")" ++ preview).

(** [StaticVectorAdapterSummary] (lines 237-273). *)
Definition StaticVectorAdapterSummary {B : Builtins} (valobj : SBValue)
    : py pystr :=
  catch (StaticVectorAdapterSummary_try valobj)
    (fun e => Ret (lit "<static_vector_adapter: error " ++ e ++ lit ">")).

(** *** [class StaticVectorAdapterSynthProvider] (lines 191-234) *)
Module StaticVectorAdapterSynthProvider.

Record t : Type := mk {
  valobj : SBValue;
  _elem_type : option SBType;
  _elem_size : Z;
  _base_addr : option Z;
  _size : option Z
}.

Definition set_elem_type x (s : t) : t :=
  mk (valobj s) x (_elem_size s) (_base_addr s) (_size s).
Definition set_elem_size x (s : t) : t :=
  mk (valobj s) (_elem_type s) x (_base_addr s) (_size s).
Definition set_base_addr x (s : t) : t :=
  mk (valobj s) (_elem_type s) (_elem_size s) x (_size s).
Definition set_size x (s : t) : t :=
  mk (valobj s) (_elem_type s) (_elem_size s) (_base_addr s) x.

Local Open Scope method_scope.

Definition __init__ (v : SBValue) : py t :=
  (elem_type <- _get_template_elem_type v ;;
   elem_size <- byte_size_or_zero elem_type ;;
   Ret (mk v elem_type elem_size None None))%py.

Definition update : method t unit :=
  self <- attr id ;;
  elem_type <- lift (_get_template_elem_type (valobj self)) ;;
  assign (set_elem_type elem_type) ;;;
  elem_size <- lift (byte_size_or_zero elem_type) ;;
  assign (set_elem_size elem_size) ;;;
  assign (set_base_addr None) ;;;
  assign (set_size None).

Definition _compute_layout {B : Builtins} : method t unit :=
  self <- attr id ;;
  match _base_addr self, _size self with
  | Some _, Some _ => retS tt
  | _, _ =>
      szm <- lift (_find_member_recursive (valobj self) (lit "elements_count_")) ;;
      size <- lift (_read_unsigned_value szm 0) ;;
      assign (set_size (Some size)) ;;;
      ptr <- lift (_find_member_recursive (valobj self) (lit "elements_")) ;;
      base_addr <- lift (unsigned_or_zero ptr) ;;
      assign (set_base_addr (Some base_addr))
  end.

Definition num_children {B : Builtins} : method t Z :=
  _compute_layout ;;;
  self <- attr id ;;
  lift (as_int (_size self)).

Definition get_child_at_index {B : Builtins} (index : Z)
    : method t SBValue :=
  _compute_layout ;;;
  self <- attr id ;;
  lift (
    out <- or_else (Ret (index <? 0))
            (or_else (n <- as_int (_size self) ;; Ret (n <=? index))
               (or_else (py_not (truthy_type (_elem_type self)))
                  (or_else
                     (Ret match _base_addr self with
                          | Some a => a =? 0
                          | None => false
                          end)
                     (Ret (_elem_size self =? 0))))) ;;
    if out then Ret SBValue_invalid else
    base <- as_int (_base_addr self) ;;
    let addr := base + index * _elem_size self in
    match _elem_type self with
    | Some ty =>
        Val.CreateValueFromAddress (valobj self) (child_name index) addr ty
    | None => Raise (lit "TypeError")
    end)%py.

Definition has_children {B : Builtins} : method t bool :=
  _compute_layout ;;;
  self <- attr id ;;
  lift (n <- as_int (_size self) ;; Ret (0 <? n))%py.

End StaticVectorAdapterSynthProvider.

End StaticVector.

(** ** Concrete debugger states

    Handles built from plain data, used to run the scripts on examples. *)

Module Host.

Definition no_member : pystr -> py SBValue := fun _ => Ret SBValue_invalid.
Definition no_child : Z -> py SBValue := fun _ => Ret SBValue_invalid.
Definition no_target : py SBTarget := Ret SBTarget_invalid.
Definition no_view : pystr -> Z -> SBType -> py SBValue :=
  fun _ _ _ => Ret SBValue_invalid.

(** [lldb.SBValue] has no method [IsBaseClass]: calling it raises
    [AttributeError] with this text. *)
Definition no_IsBaseClass : py bool :=
  Raise (lit "'SBValue' object has no attribute 'IsBaseClass'").

(** A scalar or pointer: its unsigned value, its text and where it is
    loaded. *)
Definition scalar (value : Z) (text : option pystr) (load : Z) : SBValue :=
  SBValue_obj (Ret true) no_member (Ret 0) no_child no_IsBaseClass
    (fun _ => Ret value) (Ret text) (Ret None)
    (Ret SBValue_invalid) (Ret SBValue_invalid) (Ret load)
    (Ret SBType_invalid) no_target no_view.

Fixpoint lookup (fields : list (pystr * SBValue)) (name : pystr) : SBValue :=
  match fields with
  | [] => SBValue_invalid
  | (n, v) :: rest => if PyStr.eqb n name then v else lookup rest name
  end.

(** An aggregate: named members, which are also its children in order;
    its address is where it is loaded. *)
Definition aggregate (fields : list (pystr * SBValue)) (load : Z)
    (ty : SBType) (target : py SBTarget)
    (view : pystr -> Z -> SBType -> py SBValue) : SBValue :=
  SBValue_obj (Ret true) (fun n => Ret (lookup fields n))
    (Ret (Z.of_nat (List.length fields)))
    (fun i => Ret (nth (Z.to_nat i) (map snd fields) SBValue_invalid))
    no_IsBaseClass (fun d => Ret d) (Ret None) (Ret None)
    (Ret SBValue_invalid) (Ret (scalar load None load))
    (Ret load) (Ret ty) target view.

(** A complete type of [size] bytes called [name]. *)
Definition elem (name : string) (size : Z) : SBType :=
  SBType_obj (Ret true) (Ret size) (Ret (Some (lit name)))
    (fun _ => Ret SBType_invalid) (fun _ => Ret 0).

(** The type of a container whose first template argument is [t] and
    whose second is the number [n].  [lldb.SBType] has no method
    [GetTemplateArgumentAsUnsigned], so that the number cannot be asked
    for: the call raises [AttributeError]. *)
Definition template (t : SBType) (n : Z) : SBType :=
  SBType_obj (Ret true) (Ret 0) (Ret None)
    (fun i => Ret (if i =? 0 then t else SBType_invalid))
    (fun _ => Raise (lit "'SBType' object has no attribute 'GetTemplateArgumentAsUnsigned'")).

(** A process whose memory holds [bytes] from address [start] on and is
    unreadable elsewhere; a read of no byte is refused by the binding. *)
Definition process (start : Z) (bytes : list byte) : SBProcess :=
  {| ReadMemory := fun addr size =>
       if size <=? 0 then Raise positive_integer_expected
       else if addr =? start
       then Ret (Some (firstn (Z.to_nat size) bytes), false)
       else Ret (None, true) |}.

Definition target (start : Z) (bytes : list byte) : py SBTarget :=
  Ret {| GetProcess := Ret (process start bytes) |}.

(** A [static_string] with the three fields of its layout. *)
Definition static_string (head tail cap : Z) (bytes : list byte) : SBValue :=
  aggregate [ (lit "head_", scalar head None 0);
              (lit "tail_", scalar tail None 0);
              (lit "max_length_", scalar cap None 0) ]
    0 SBType_invalid (target head bytes) no_view.

(** Views of element type [t] show their address as their value; of a
    type of size 0 the debugger makes no view and answers with the
    invalid handle. *)
Definition view_at : pystr -> Z -> SBType -> py SBValue :=
  fun _ addr t =>
    match Ty.GetByteSize t with
    | Ret 0 => Ret SBValue_invalid
    | _ => Ret (scalar addr (Some (of_int addr)) addr)
    end.

(** The binding of [CreateValueFromAddress] converts the address to an
    unsigned 64-bit number and raises when it does not fit. *)
Definition view_at_u64 : pystr -> Z -> SBType -> py SBValue :=
  fun name addr t =>
    if (0 <=? addr) && (addr <? 2 ^ 64) then view_at name addr t
    else Raise (lit "OverflowError").

(** A [std::array] of [n] bytes loaded at [load], its elements under the
    member called [field]. *)
Definition byte_array (field : string) (load n : Z) : SBValue :=
  aggregate
    [ (lit field,
       aggregate (map (fun i => (StaticVector.child_name i, scalar 0 None (load + i)))
                    (range n))
         load SBType_invalid no_target no_view) ]
    load SBType_invalid no_target no_view.


(** A [static_vector]: the count, the backing array under [field], the
    element type and the declared number of bytes. *)
Definition static_vector (count : Z) (field : string) (load nbytes : Z)
    (t : SBType) (view : pystr -> Z -> SBType -> py SBValue) : SBValue :=
  aggregate [ (lit "elementsCount", scalar count None 0);
              (lit "arr", byte_array field load nbytes) ]
    load (template t nbytes) no_target view.

(** A [static_vector_adapter]: count, capacity and element pointer. *)
Definition static_vector_adapter (count cap ptr : Z) (t : SBType)
    (view : pystr -> Z -> SBType -> py SBValue) : SBValue :=
  aggregate [ (lit "elements_count_", scalar count (Some (of_int count)) 0);
              (lit "max_elements_count_", scalar cap (Some (of_int cap)) 0);
              (lit "elements_", scalar ptr None 0) ]
    0 (template t 0) no_target view.

(** Builtins for the examples.  They agree with Python on ASCII bytes
    and on numerals made of an optional sign, an optional [0x] in base
    16, and digits. *)
Definition digit (c : char) : option Z :=
  let c := Z.of_N c in
  if (48 <=? c) && (c <=? 57) then Some (c - 48)
  else if (97 <=? c) && (c <=? 102) then Some (c - 87)
  else if (65 <=? c) && (c <=? 70) then Some (c - 55)
  else None.

Fixpoint digits (base acc : Z) (s : pystr) : option Z :=
  match s with
  | [] => Some acc
  | c :: r =>
      match digit c with
      | Some d => if d <? base then digits base (acc * base + d) r else None
      | None => None
      end
  end.

Definition numeral (base : Z) (s : pystr) : py Z :=
  let (neg, s) := match s with
                  | 45%N :: r => (true, r)
                  | 43%N :: r => (false, r)
                  | _ => (false, s)
                  end in
  let s := if (base =? 16) && startswith s (lit "0x")
           then skipn 2 s else s in
  match s with
  | [] => Raise (lit "ValueError")
  | _ => match digits base 0 s with
         | Some n => Ret (if neg then - n else n)
         | None => Raise (lit "ValueError")
         end
  end.

Definition ascii_or_replacement (b : byte) : char :=
  let n := Byte.to_N b in if (n <? 128)%N then n else 65533%N.

#[export] Instance plain : Builtins := {|
  decode_utf8 := fun b => Ret (map ascii_or_replacement b);
  int_of_str := numeral 10;
  int_of_str16 := numeral 16
|}.

(** The bytes of an ASCII text. *)
Fixpoint bytes_of (s : string) : list byte :=
  match s with
  | EmptyString => []
  | String a r => byte_of_ascii a :: bytes_of r
  end.

End Host.

(** ** What the claims speak about *)

Module Spec.

(** [clamp lo hi x]: [x] brought into the interval from [lo] to [hi]. *)
Definition clamp (lo hi x : Z) : Z := Z.max lo (Z.min x hi).

(** The reported length of a string as the specification words it: the
    distance from head to tail, clamped to the capacity when that is
    not zero, then clamped to [2^31]. *)
Definition reported_len (head_addr tail_addr cap : Z) : Z :=
  let d := tail_addr - head_addr in
  clamp 0 (2 ^ 31) (if cap =? 0 then d else clamp 0 cap d).

(** The debugger resolves the three fields of a static string and reads
    them as [head_addr], [tail_addr] and [cap]; [process] is the process
    of the inspected value. *)
Record string_layout (valobj : SBValue) (process : SBProcess)
    (head_addr tail_addr cap : Z) : Prop := {
  layout_process :
    exists target, Val.GetTarget valobj = Ret target
                   /\ GetProcess target = Ret process;
  layout_head :
    exists m, StaticString._find_member_recursive valobj (lit "head_")
                = Ret (Some m)
              /\ Val.GetValueAsUnsigned m 0 = Ret head_addr;
  layout_tail :
    exists m, StaticString._find_member_recursive valobj (lit "tail_")
                = Ret (Some m)
              /\ Val.GetValueAsUnsigned m 0 = Ret tail_addr;
  layout_cap :
    exists m, StaticString._find_member_recursive valobj (lit "max_length_")
                = Ret (Some m)
              /\ Val.GetValueAsUnsigned m 0 = Ret cap
}.

(** [k] is the offset of the first NUL of [backing]. *)
Definition first_nul_at (backing : list byte) (k : nat) : Prop :=
  nth_error backing k = Some x00
  /\ forall j, (j < k)%nat -> nth_error backing j <> Some x00.

(** The member [name] of [valobj], looked up directly, reads as the
    count [n]: it is valid and holds [n], or it is not valid and [n] is
    0. *)
Definition count_reads (valobj : SBValue) (name : pystr) (n : Z) : Prop :=
  exists m, Val.GetChildMemberWithName valobj name = Ret m
            /\ ((Val.IsValid m = Ret true
                 /\ Val.GetValueAsUnsigned m 0 = Ret n)
                \/ (Val.IsValid m = Ret false /\ n = 0)).

(** The member [name] of [valobj] is absent or invalid. *)
Definition member_absent (valobj : SBValue) (name : pystr) : Prop :=
  exists m, Val.GetChildMemberWithName valobj name = Ret m
            /\ Val.IsValid m = Ret false.


(** The absent child. *)
Definition absent_child (r : py SBValue) : Prop := r = Ret SBValue_invalid.


(** The layout cache of a provider is empty, as [__init__] and [update]
    leave it. *)
Definition vector_fresh (p : StaticVector.StaticVectorSynthProvider.t) : Prop :=
  StaticVector.StaticVectorSynthProvider._data_addr p = None
  /\ StaticVector.StaticVectorSynthProvider._size p = None.

Definition adapter_fresh
    (p : StaticVector.StaticVectorAdapterSynthProvider.t) : Prop :=
  StaticVector.StaticVectorAdapterSynthProvider._base_addr p = None
  /\ StaticVector.StaticVectorAdapterSynthProvider._size p = None.

(** The count field of an adapter, read through the value coercer,
    evaluates to [n]. *)
Definition adapter_count_reads {B : Builtins} (valobj : SBValue) (n : Z)
    : Prop :=
  exists szm,
    StaticVector._find_member_recursive valobj (lit "elements_count_") = Ret szm
    /\ StaticVector._read_unsigned_value szm 0 = Ret n.




(** *** The value coercer, step by step

    Each step either yields a number or fails. *)
Definition succeeded {A} (m : py A) : option A :=
  match m with
  | Ret a => Some a
  | Raise _ => None
  end.

(** (1) dereference once; read the unsigned value of a valid result. *)
Definition step_dereference (v : SBValue) (default : Z) : option Z :=
  match Val.Dereference v with
  | Ret d =>
      match Val.IsValid d with
      | Ret true => succeeded (Val.GetValueAsUnsigned d default)
      | _ => None
      end
  | Raise _ => None
  end.

Definition hex_prefixed (s : pystr) : bool :=
  startswith s (lit "0x") || startswith s (lit "-0x").

(** (2) parse the text: hexadecimal after a second dereference when it
    is hex-prefixed, decimal otherwise. *)
Definition step_text {B : Builtins} (v : SBValue) (default : Z) : option Z :=
  match Val.GetValue v with
  | Ret (Some s) =>
      let s := strip s in
      match s with
      | [] => None
      | _ :: _ =>
          if hex_prefixed s then
            match step_dereference v default with
            | Some z => Some z
            | None => succeeded (int_of_str16 s)
            end
          else succeeded (int_of_str s)
      end
  | _ => None
  end.

(** (3) the raw unsigned accessor. *)
Definition step_accessor (v : SBValue) (default : Z) : option Z :=
  succeeded (Val.GetValueAsUnsigned v default).

(** The first step that yields a number decides; [default] when none
    does. *)
Fixpoint first_success (steps : list (option Z)) (default : Z) : Z :=
  match steps with
  | [] => default
  | Some z :: _ => z
  | None :: rest => first_success rest default
  end.

Definition coerce {B : Builtins} (v : SBValue) (default : Z) : Z :=
  first_success
    [step_dereference v default; step_text v default; step_accessor v default]
    default.

End Spec.

(** ** Example containers *)

Module Examples.
Import StaticVector.

Definition short : SBType := Host.elem "short" 2.
Definition long : SBType := Host.elem "long" 8.

(** A type the debugger knows by name only: valid, of size 0. *)
Definition incomplete : SBType := Host.elem "incomplete" 0.

(** Three [short]s in ten bytes at [0x1000]. *)
Definition vector3 : SBValue :=
  Host.static_vector 3 "_M_elems" 4096 10 short Host.view_at.
Definition vector3_provider : StaticVectorSynthProvider.t :=
  StaticVectorSynthProvider.mk vector3 (Some short) 2 None None.

(** No element in ten bytes. *)
Definition vector0 : SBValue :=
  Host.static_vector 0 "_M_elems" 4096 10 short Host.view_at.
Definition vector0_provider : StaticVectorSynthProvider.t :=
  StaticVectorSynthProvider.mk vector0 (Some short) 2 None None.

(** One element of the incomplete type. *)
Definition vector_incomplete : SBValue :=
  Host.static_vector 1 "_M_elems" 4096 10 incomplete Host.view_at.
Definition vector_incomplete_provider : StaticVectorSynthProvider.t :=
  StaticVectorSynthProvider.mk vector_incomplete (Some incomplete) 0 None None.

(** A vector whose backing array is missing. *)
Definition vector_no_arr : SBValue :=
  Host.aggregate [ (lit "elementsCount", Host.scalar 3 None 0) ]
    0 (Host.template short 0) Host.no_target Host.view_at.

(** Three [long]s out of eight at [0x3000]. *)
Definition adapter3 : SBValue :=
  Host.static_vector_adapter 3 8 12288 long Host.view_at.
Definition adapter3_provider : StaticVectorAdapterSynthProvider.t :=
  StaticVectorAdapterSynthProvider.mk adapter3 (Some long) 8 None None.

(** The fourth end-to-end example of the specification. *)
Definition adapter0 : SBValue :=
  Host.static_vector_adapter 0 8 12288 long Host.view_at.
Definition adapter0_provider : StaticVectorAdapterSynthProvider.t :=
  StaticVectorAdapterSynthProvider.mk adapter0 (Some long) 8 None None.

(** An adapter over the incomplete type. *)
Definition adapter_incomplete : SBValue :=
  Host.static_vector_adapter 1 8 12288 incomplete Host.view_at.
Definition adapter_incomplete_provider : StaticVectorAdapterSynthProvider.t :=
  StaticVectorAdapterSynthProvider.mk adapter_incomplete (Some incomplete) 0
    None None.


(** An adapter whose pointer is garbage: four [long]s from the last
    eight bytes of the address space on. *)
Definition adapter_wild : SBValue :=
  Host.static_vector_adapter 4 8 (2 ^ 64 - 8) long Host.view_at_u64.
Definition adapter_wild_provider : StaticVectorAdapterSynthProvider.t :=
  StaticVectorAdapterSynthProvider.mk adapter_wild (Some long) 8 None None.

End Examples.

(** ** Inheritance

    What [StaticString._find_member_recursive] may find: the member of the
    value itself, or the member of a valid base-class child, and so on
    through the bases. *)

Module Resolve.

Inductive inherits_member : SBValue -> pystr -> SBValue -> Prop :=
| own_member valobj name m :
    Val.GetChildMemberWithName valobj name = Ret m ->
    Val.IsValid m = Ret true ->
    inherits_member valobj name m
| base_member valobj name n i child m :
    Val.GetNumChildren valobj = Ret n ->
    0 <= i < n ->
    Val.GetChildAtIndex valobj i = Ret child ->
    Val.IsValid child = Ret true ->
    Val.IsBaseClass child = Ret true ->
    inherits_member child name m ->
    inherits_member valobj name m.

(** The child of an answer, [fallback] for an exception. *)
Definition answer_or {A} (fallback : A) (r : py A) : A :=
  match r with
  | Ret a => a
  | Raise _ => fallback
  end.

(** Induction over the children of a handle. *)
Fixpoint children_ind (P : SBValue -> Prop)
    (Hinvalid : P SBValue_invalid)
    (Hobj : forall a mem n ch bc gu gv gs de ao la ty tg cv,
        (forall i c, ch i = Ret c -> P c) ->
        P (SBValue_obj a mem n ch bc gu gv gs de ao la ty tg cv))
    (v : SBValue) {struct v} : P v :=
  match v with
  | SBValue_invalid => Hinvalid
  | SBValue_obj a mem n ch bc gu gv gs de ao la ty tg cv =>
      Hobj a mem n ch bc gu gv gs de ao la ty tg cv
        (fun i c =>
           match ch i as r return r = Ret c -> P c with
           | Ret c' =>
               fun H => eq_ind c' P (children_ind P Hinvalid Hobj c') c
                          (f_equal (answer_or c') H)
           | Raise e =>
               fun H =>
                 match H in (_ = y)
                       return (match y with Ret _ => P c | Raise _ => True end)
                 with eq_refl => I end
           end)
  end.

(** The value has children and none of them is valid. *)
Definition no_valid_child (valobj : SBValue) : Prop :=
  exists n, Val.GetNumChildren valobj = Ret n
            /\ forall i, 0 <= i < n ->
                 exists c, Val.GetChildAtIndex valobj i = Ret c
                           /\ Val.IsValid c = Ret false.

(** The first valid child of the value answers [IsBaseClass()] with the
    exception [e]: the children before it are not valid. *)
Definition first_valid_child_raises (valobj : SBValue) (e : pystr) : Prop :=
  exists n k child,
    Val.GetNumChildren valobj = Ret n
    /\ (k < Z.to_nat n)%nat
    /\ (forall i, (i < k)%nat ->
          exists c, Val.GetChildAtIndex valobj (Z.of_nat i) = Ret c
                    /\ Val.IsValid c = Ret false)
    /\ Val.GetChildAtIndex valobj (Z.of_nat k) = Ret child
    /\ Val.IsValid child = Ret true
    /\ Val.IsBaseClass child = Raise e.

(** The value has a valid member of this name of its own. *)
Definition member_present (valobj : SBValue) (name : pystr) : Prop :=
  exists m, Val.GetChildMemberWithName valobj name = Ret m
            /\ Val.IsValid m = Ret true.

(** The three fields of the layout of a static string. *)
Definition string_fields : list pystr :=
  [lit "head_"; lit "tail_"; lit "max_length_"].

End Resolve.

(** Further example values. *)
Module Variants.

(** The same handle, seen as a base-class child. *)
Definition as_base (v : SBValue) : SBValue :=
  match v with
  | SBValue_invalid => SBValue_invalid
  | SBValue_obj a mem n ch _ gu gv gs de ao la ty tg cv =>
      SBValue_obj a mem n ch (Ret true) gu gv gs de ao la ty tg cv
  end.

(** A string type that inherits its three fields from a base class. *)
Definition derived_string (head tail cap : Z) (bytes : list byte) : SBValue :=
  Host.aggregate
    [ (lit "string_base", as_base (Host.static_string head tail cap bytes)) ]
    0 SBType_invalid (Host.target head bytes) Host.no_view.

(** A value without any member. *)
Definition childless : SBValue :=
  Host.aggregate [] 0 SBType_invalid Host.no_target Host.no_view.

(** A string whose characters lie at [head] while the process has memory
    at address 0 only. *)
Definition unmapped_string (head tail cap : Z) : SBValue :=
  Host.aggregate
    [ (lit "head_", Host.scalar head None 0);
      (lit "tail_", Host.scalar tail None 0);
      (lit "max_length_", Host.scalar cap None 0) ]
    0 SBType_invalid (Host.target 0 []) Host.no_view.

(** A string whose capacity field is missing. *)
Definition no_capacity (head tail : Z) (bytes : list byte) : SBValue :=
  Host.aggregate [ (lit "head_", Host.scalar head None 0);
                   (lit "tail_", Host.scalar tail None 0) ]
    0 SBType_invalid (Host.target head bytes) Host.no_view.

(** A process that refuses any read of more than 1024 bytes. *)
Definition capped_process (start : Z) (bytes : list byte) : SBProcess :=
  {| ReadMemory := fun addr size =>
       if size <=? 1024 then ReadMemory (Host.process start bytes) addr size
       else Raise (lit "read too large") |}.

Definition capped_string (head tail cap : Z) (bytes : list byte) : SBValue :=
  Host.aggregate
    [ (lit "head_", Host.scalar head None 0);
      (lit "tail_", Host.scalar tail None 0);
      (lit "max_length_", Host.scalar cap None 0) ]
    0 SBType_invalid
    (Ret {| GetProcess := Ret (capped_process head bytes) |}) Host.no_view.

(** The same handle with another answer to [GetType]. *)
Definition with_type (ty : py SBType) (v : SBValue) : SBValue :=
  match v with
  | SBValue_invalid => SBValue_invalid
  | SBValue_obj a mem n ch bc gu gv gs de ao la _ tg cv =>
      SBValue_obj a mem n ch bc gu gv gs de ao la ty tg cv
  end.

(** A vector whose type cannot be asked for. *)
Definition vector_type_error : SBValue :=
  with_type (Raise (lit "no type")) Examples.vector3.

(** A vector whose type has no readable template argument. *)
Definition vector_no_template : SBValue :=
  with_type
    (Ret (SBType_obj (Ret true) (Ret 0) (Ret None)
            (fun _ => Raise (lit "no template argument")) (fun _ => Ret 0)))
    Examples.vector3.

(** Providers over [vector3] and [adapter3] that still hold an older
    layout. *)
Definition vector3_stale : StaticVector.StaticVectorSynthProvider.t :=
  StaticVector.StaticVectorSynthProvider.mk Examples.vector3
    (Some Examples.short) 2 (Some 8192) (Some 99).

Definition adapter3_stale : StaticVector.StaticVectorAdapterSynthProvider.t :=
  StaticVector.StaticVectorAdapterSynthProvider.mk Examples.adapter3
    (Some Examples.long) 8 (Some 8192) (Some 99).

Definition vector_type_error_stale : StaticVector.StaticVectorSynthProvider.t :=
  StaticVector.StaticVectorSynthProvider.mk vector_type_error
    (Some Examples.short) 2 (Some 8192) (Some 99).

(** An adapter whose element pointer is missing. *)
Definition adapter_no_pointer : SBValue :=
  Host.aggregate
    [ (lit "elements_count_", Host.scalar 3 (Some (of_int 3)) 0);
      (lit "max_elements_count_", Host.scalar 8 (Some (of_int 8)) 0) ]
    0 (Host.template Examples.long 0) Host.no_target Host.view_at.

(** An array handle that shows neither member, of a type whose second
    template argument is 24 and cannot be asked for. *)
Definition opaque_array : SBValue :=
  Host.aggregate [] 4096 (Host.template SBType_invalid 24)
    Host.no_target Host.no_view.

(** A reference to a count: it dereferences to the number, while its own
    text and value are the address of the referent. *)
Definition reference (value address : Z) : SBValue :=
  SBValue_obj (Ret true) Host.no_member (Ret 0) Host.no_child (Ret false)
    (fun _ => Ret address) (Ret (Some (lit "0x" ++ of_int address))) (Ret None)
    (Ret (Host.scalar value (Some (of_int value)) address))
    (Ret SBValue_invalid) (Ret 0)
    (Ret SBType_invalid) Host.no_target Host.no_view.

(** Providers over values without backing storage. *)
Definition vector_no_arr_provider : StaticVector.StaticVectorSynthProvider.t :=
  StaticVector.StaticVectorSynthProvider.mk Examples.vector_no_arr
    (Some Examples.short) 2 None None.

Definition adapter_no_pointer_provider
    : StaticVector.StaticVectorAdapterSynthProvider.t :=
  StaticVector.StaticVectorAdapterSynthProvider.mk adapter_no_pointer
    (Some Examples.long) 8 None None.

End Variants.

(** ** Properties *)

Arguments lit : simpl never.

(** *** The exception monad *)

Lemma and_then_true (a b : py bool) :
  and_then a b = Ret true -> a = Ret true /\ b = Ret true.
Proof.
  unfold and_then, bind.
  destruct a as [[|]|e]; intro H; try discriminate; auto.
Qed.


Lemma catch_returns {A} (m : py A) (h : pystr -> A) :
  exists a, catch m (fun e => Ret (h e)) = Ret a.
Proof. destruct m as [a|e]; simpl; eauto. Qed.

Lemma truthy_some (r : option SBValue) :
  and_then (truthy r) (truthy r) = Ret true ->
  exists m, r = Some m /\ Val.IsValid m = Ret true.
Proof.
  intros H. apply and_then_true in H as [H _].
  destruct r as [m|]; simpl in H; [eauto | discriminate].
Qed.

Lemma if_truthy_valid {A} (m : SBValue) (k : SBValue -> py A) (o : py A) :
  Val.IsValid m = Ret true -> if_truthy (Some m) k o = k m.
Proof. intros H. simpl. rewrite H. reflexivity. Qed.

Lemma if_valid_valid {A} (m : SBValue) (k : SBValue -> py A) (o : py A) :
  Val.IsValid m = Ret true -> if_valid (Some m) k o = k m.
Proof. intros H. simpl. rewrite H. reflexivity. Qed.

Module StaticStringFacts.
Import StaticString Spec.

(** A member that [_find_member_recursive] hands back is valid. *)
Lemma find_member_valid (valobj : SBValue) (name : pystr) (m : SBValue) :
  _find_member_recursive valobj name = Ret (Some m) ->
  Val.IsValid m = Ret true.
Proof.
  destruct valobj as [|v mem n ch bc gu gv gs de ao la ty tg cv]; simpl.
  - discriminate.
  - destruct (mem name) as [m0|e]; simpl; [|discriminate].
    destruct (and_then (Val.IsValid m0) (Val.IsValid m0)) as [[|]|e] eqn:E;
      simpl; try discriminate.
    + intros [= <-]. apply and_then_true in E. tauto.
    + destruct n as [n|e]; simpl; [|discriminate].
      induction (range n) as [|i rest IH]; [discriminate|].
      destruct (ch i) as [child|e]; [|discriminate].
      destruct (and_then (Val.IsValid child) _) as [[|]|e]; simpl;
        try discriminate; auto.
      destruct (_find_member_recursive child name) as [r|e]; simpl;
        [|discriminate].
      destruct (and_then (truthy r) (truthy r)) as [[|]|e] eqn:F; simpl;
        try discriminate; auto.
      intros [= ->]. apply truthy_some in F as (m' & [= ->] & F). exact F.
Qed.

(** The clamp of the script is the clamp of the specification. *)
Lemma clamp_length_reported (head_addr tail_addr cap : Z) :
  clamp_length head_addr tail_addr cap = reported_len head_addr tail_addr cap.
Proof.
  unfold clamp_length, reported_len, clamp.
  change (Z.shiftl 1 31) with (2 ^ 31).
  destruct (cap =? 0); simpl; lia.
Qed.

Lemma decode_total {B : Builtins} (b : list byte) :
  exists s, decode b = Ret s.
Proof.
  unfold decode, decode_latin1. destruct (decode_utf8 b); simpl; eauto.
Qed.

Lemma find_nul_from_first (backing : list byte) :
  forall (k n : nat) (i : Z),
    first_nul_at backing k -> (k < n)%nat ->
    find_nul_from i (firstn n backing) = i + Z.of_nat k.
Proof.
  induction backing as [|y r IH]; intros k n i [Hk Hlt] Hn.
  - destruct k; discriminate.
  - destruct n as [|n]; [lia|]. simpl.
    destruct k as [|k].
    + simpl in Hk. injection Hk as ->. simpl. lia.
    + destruct (Byte.eqb y x00) eqn:E.
      * apply Byte.byte_dec_bl in E. subst y.
        exfalso. apply (Hlt 0%nat); [lia | reflexivity].
      * rewrite (IH k n (i + 1)); [lia | | lia].
        split; [exact Hk|].
        intros j Hj. apply (Hlt (S j)). lia.
Qed.

(** Truncation at the first NUL keeps exactly the bytes before it. *)
Lemma nul_truncate_first (backing : list byte) (k n : nat) :
  first_nul_at backing k -> (k < n)%nat ->
  nul_truncate (firstn n backing) = firstn k backing.
Proof.
  intros H Hn. unfold nul_truncate, find_nul.
  rewrite (find_nul_from_first 0 H Hn). simpl.
  replace (Z.of_nat k =? -1) with false by (symmetry; apply Z.eqb_neq; lia).
  simpl. rewrite Nat2Z.id, firstn_firstn. f_equal. lia.
Qed.

(** Head and tail describe a span and not the empty encoding. *)
Lemma proper_span (head_addr tail_addr : Z) :
  head_addr <> 0 -> tail_addr <> 0 -> head_addr <= tail_addr ->
  (head_addr =? 0) || (tail_addr =? 0) || (tail_addr <? head_addr) = false.
Proof.
  intros. rewrite !orb_false_iff, !Z.eqb_neq, Z.ltb_ge. tauto.
Qed.

(** The outcome of the script once the three fields are resolved. *)
Lemma summary_resolved {B : Builtins} valobj process head_addr tail_addr cap :
  string_layout valobj process head_addr tail_addr cap ->
  static_string_summary_try valobj =
    if (head_addr =? 0) || (tail_addr =? 0) || (tail_addr <? head_addr)
    then Ret ([dquote; dquote] ++ lit " len=0 cap=" ++ of_int cap)
    else
      let length := clamp_length head_addr tail_addr cap in
      bind (ReadMemory process head_addr (Z.min length 1024)) (fun r =>
        match r with
        | (Some data, false) =>
            bind (decode (nul_truncate data)) (fun s =>
              Ret ([dquote] ++ display s ++ [dquote] ++ lit " len="
                     ++ of_int length ++ lit " cap=" ++ of_int cap))
        | _ =>
            Ret (lit "<static_string: unreadable memory> len="
                   ++ of_int length ++ lit " cap=" ++ of_int cap)
        end).
Proof.
  intros [(tg & Ht & Hp) (h & Hh & Hhv) (t & Htl & Htv) (c & Hc & Hcv)].
  unfold static_string_summary_try.
  rewrite Ht; cbn [bind]. rewrite Hp; cbn [bind].
  rewrite Hh; cbn [bind]. rewrite Htl; cbn [bind]. rewrite Hc; cbn [bind].
  rewrite !if_truthy_valid by (eapply find_member_valid; eassumption).
  rewrite Hhv; cbn [bind]. rewrite Htv; cbn [bind]. rewrite Hcv; cbn [bind].
  reflexivity.
Qed.

(** C3.  When the head address is 0, or the tail address is 0, or the
    tail lies below the head, the summary is the empty text with [len=0]
    and the declared capacity, whatever the three values are otherwise. *)
Theorem C3_empty_encoding {B : Builtins} valobj process head_addr tail_addr cap :
  string_layout valobj process head_addr tail_addr cap ->
  head_addr = 0 \/ tail_addr = 0 \/ tail_addr < head_addr ->
  static_string_summary valobj
  = Ret ([dquote; dquote] ++ lit " len=0 cap=" ++ of_int cap).
Proof.
  intros L H. unfold static_string_summary.
  rewrite (summary_resolved L).
  replace ((head_addr =? 0) || (tail_addr =? 0) || (tail_addr <? head_addr))
    with true; [reflexivity|].
  symmetry. rewrite !orb_true_iff, !Z.eqb_eq, Z.ltb_lt. tauto.
Qed.

Lemma C3_empty_encoding_witness :
  static_string_summary (B := Host.plain) (Host.static_string 8208 8192 4 (Host.bytes_of "text"))
  = Ret ([dquote; dquote] ++ lit " len=0 cap=" ++ of_int 4).
Proof.
  apply (@C3_empty_encoding Host.plain _ (Host.process 8208 (Host.bytes_of "text"))
           8208 8192 4).
  - split; eexists; split; reflexivity.
  - right; right; reflexivity.
Defined.

(** When the read returns, the summary reports as [len] the distance from
    head to tail clamped to the capacity when that is nonzero, and then
    to [2^31]: after the unreadable-memory marker when the read fails,
    after the quoted text otherwise. *)
Lemma reported_length {B : Builtins} valobj process head_addr tail_addr cap r :
  string_layout valobj process head_addr tail_addr cap ->
  head_addr <> 0 -> tail_addr <> 0 -> head_addr <= tail_addr ->
  ReadMemory process head_addr
    (Z.min (reported_len head_addr tail_addr cap) 1024) = Ret r ->
  exists text,
    static_string_summary valobj
    = Ret (text ++ lit " len=" ++ of_int (reported_len head_addr tail_addr cap)
                ++ lit " cap=" ++ of_int cap)
    /\ (text = lit "<static_string: unreadable memory>"
        \/ exists s, text = [dquote] ++ display s ++ [dquote]).
Proof.
  intros L Hh Ht Hle Hr. unfold static_string_summary.
  rewrite (summary_resolved L).
  rewrite (proper_span Hh Ht Hle).
  cbv zeta. rewrite clamp_length_reported, Hr. cbn [bind].
  destruct r as [[data|] [|]]; cbn [catch];
    try (exists (lit "<static_string: unreadable memory>");
         split; [reflexivity | left; reflexivity]).
  destruct (decode_total (nul_truncate data)) as [s ->]. cbn [bind catch].
  exists ([dquote] ++ display s ++ [dquote]). split.
  - rewrite <- !app_assoc. reflexivity.
  - right. eauto.
Qed.

(** An exception of the read becomes the error placeholder: no length is
    reported then. *)
Lemma read_exception_hides_length {B : Builtins} valobj process
    head_addr tail_addr cap e :
  string_layout valobj process head_addr tail_addr cap ->
  head_addr <> 0 -> tail_addr <> 0 -> head_addr <= tail_addr ->
  ReadMemory process head_addr
    (Z.min (reported_len head_addr tail_addr cap) 1024) = Raise e ->
  static_string_summary valobj
  = Ret (lit "<static_string: error " ++ e ++ lit ">").
Proof.
  intros L Hh Ht Hle Hr. unfold static_string_summary.
  rewrite (summary_resolved L).
  rewrite (proper_span Hh Ht Hle).
  cbv zeta. rewrite clamp_length_reported, Hr. reflexivity.
Qed.

(** C2, at the input where the code departs from it.  Head and tail are
    the same nonzero address: the triple is within the claim and its
    clamped length is 0.  The script asks the process for 0 bytes, the
    binding refuses such a read with an exception, and the summary is the
    error placeholder, which reports no [len] at all. *)
Theorem C2_empty_string_reports_no_length :
  string_layout (Host.static_string 4096 4096 16 (Host.bytes_of "hello"))
    (Host.process 4096 (Host.bytes_of "hello")) 4096 4096 16
  /\ reported_len 4096 4096 16 = 0
  /\ ReadMemory (Host.process 4096 (Host.bytes_of "hello")) 4096
       (Z.min (clamp_length 4096 4096 16) 1024)
     = Raise positive_integer_expected
  /\ static_string_summary (B := Host.plain)
       (Host.static_string 4096 4096 16 (Host.bytes_of "hello"))
     = Ret (lit "<static_string: error Positive integer expected>")
  /\ static_string_summary (B := Host.plain)
       (Host.static_string 4096 4096 16 (Host.bytes_of "hello"))
     <> Ret ([dquote; dquote] ++ lit " len=0 cap=16").
Proof.
  split; [split; eexists; split; reflexivity|].
  split; [reflexivity|]. split; [reflexivity|]. split; [reflexivity|].
  vm_compute. discriminate.
Qed.

(** With the tail above the head the length is reported. *)
Example clamped_length_reported :
  exists text,
    static_string_summary (B := Host.plain)
      (Host.static_string 8192 8208 4 (Host.bytes_of "hello world and more"))
    = Ret (text ++ lit " len=" ++ of_int (reported_len 8192 8208 4)
                ++ lit " cap=" ++ of_int 4)
    /\ (text = lit "<static_string: unreadable memory>"
        \/ exists s, text = [dquote] ++ display s ++ [dquote]).
Proof.
  apply (@reported_length Host.plain _
           (Host.process 8192 (Host.bytes_of "hello world and more"))
           8192 8208 4
           (Some (Host.bytes_of "hell"), false)).
  - split; eexists; split; reflexivity.
  - discriminate.
  - discriminate.
  - discriminate.
  - reflexivity.
Qed.

(** The first two end-to-end examples of the specification. *)
Example hello :
  static_string_summary (B := Host.plain)
    (Host.static_string 4096 4101 16 (Host.bytes_of "hello"))
  = Ret ([dquote] ++ lit "hello" ++ [dquote] ++ lit " len=5 cap=16").
Proof. reflexivity. Qed.

Example escape_controls :
  escape [104%N; 10%N; 9%N; backslash]
  = lit "h\n\t" ++ [backslash; backslash].
Proof. reflexivity. Qed.

Example clamped_to_capacity :
  static_string_summary (B := Host.plain)
    (Host.static_string 8192 8208 4 (Host.bytes_of "hello world and more"))
  = Ret ([dquote] ++ lit "hell" ++ [dquote] ++ lit " len=4 cap=4").
Proof. reflexivity. Qed.

(** C6, as amended.  When the first NUL of the backing bytes is at an
    offset [k] below both the reported length and the 1024 bytes that
    are read, the text shown is the first [k] bytes decoded, escaped and
    cut to 200 characters for display: no byte at or beyond the NUL
    reaches it. *)
Theorem C6_preview_stops_at_nul {B : Builtins} valobj process
    head_addr tail_addr cap (backing : list byte) (k : nat) :
  string_layout valobj process head_addr tail_addr cap ->
  head_addr <> 0 -> tail_addr <> 0 -> head_addr <= tail_addr ->
  let len := reported_len head_addr tail_addr cap in
  ReadMemory process head_addr (Z.min len 1024)
  = Ret (Some (firstn (Z.to_nat (Z.min len 1024)) backing), false) ->
  first_nul_at backing k ->
  Z.of_nat k < Z.min len 1024 ->
  exists s,
    decode (firstn k backing) = Ret s
    /\ static_string_summary valobj
       = Ret ([dquote] ++ display s ++ [dquote] ++ lit " len=" ++ of_int len
                ++ lit " cap=" ++ of_int cap).
Proof.
  intros L Hh Ht Hle len Hr Hk Hlt. unfold static_string_summary.
  rewrite (summary_resolved L).
  rewrite (proper_span Hh Ht Hle).
  cbv zeta. rewrite clamp_length_reported. fold len. rewrite Hr. cbn [bind].
  rewrite (nul_truncate_first Hk) by lia.
  destruct (decode_total (firstn k backing)) as [s Hs].
  exists s. split; [exact Hs|]. rewrite Hs. reflexivity.
Qed.

Lemma C6_preview_stops_at_nul_witness :
  exists s,
    decode (B := Host.plain) (firstn 2 [x68; x69; x00; x21]) = Ret s
    /\ static_string_summary (B := Host.plain) (Host.static_string 4096 4100 16 [x68; x69; x00; x21])
       = Ret ([dquote] ++ display s ++ [dquote] ++ lit " len="
                ++ of_int (reported_len 4096 4100 16)
                ++ lit " cap=" ++ of_int 16).
Proof.
  apply (@C6_preview_stops_at_nul Host.plain _
           (Host.process 4096 [x68; x69; x00; x21]) 4096 4100 16
           [x68; x69; x00; x21] 2%nat).
  - split; eexists; split; reflexivity.
  - discriminate.
  - discriminate.
  - discriminate.
  - reflexivity.
  - split; [reflexivity|].
    intros [|[|j]] Hj; simpl; try discriminate; lia.
  - reflexivity.
Defined.

(** The backing bytes of the counterexample: 1025 letters [a], then a
    NUL. *)
Lemma letters_then_nul (n : nat) :
  first_nul_at (repeat x61 n ++ [x00]) n.
Proof.
  split.
  - rewrite nth_error_app2; rewrite repeat_length; [|lia].
    rewrite Nat.sub_diag. reflexivity.
  - intros j Hj. rewrite nth_error_app1 by (rewrite repeat_length; lia).
    rewrite nth_error_repeat by lia. discriminate.
Qed.

(** C6, as stated, fails.  The first NUL is at offset 1025, below the
    reported length 1026; only 1024 bytes are read and decoded, not the
    first 1025, and the text shown is 200 letters and an ellipsis. *)
Lemma C6_counterexample :
  let backing := repeat x61 1025 ++ [x00] in
  let valobj := Host.static_string 4096 5122 0 backing in
  first_nul_at backing 1025
  /\ 1025 < reported_len 4096 5122 0
  /\ ReadMemory (Host.process 4096 backing) 4096
       (Z.min (clamp_length 4096 5122 0) 1024)
     = Ret (Some (repeat x61 1024), false)
  /\ nul_truncate (repeat x61 1024) <> firstn 1025 backing
  /\ decode (B := Host.plain) (firstn 1025 backing) = Ret (repeat 97%N 1025)
  /\ static_string_summary (B := Host.plain) valobj
     = Ret ([dquote] ++ repeat 97%N 200 ++ [ellipsis] ++ [dquote]
              ++ lit " len=1026 cap=0")
  /\ static_string_summary (B := Host.plain) valobj
     <> Ret ([dquote] ++ repeat 97%N 1025 ++ [dquote] ++ lit " len=1026 cap=0").
Proof.
  cbv zeta. split; [apply letters_then_nul|].
  split; [reflexivity|].
  split; [vm_compute; reflexivity|].
  split; [vm_compute; discriminate|].
  split; [vm_compute; reflexivity|].
  split; [vm_compute; reflexivity|].
  vm_compute. discriminate.
Qed.

End StaticStringFacts.

Module StaticVectorFacts.
Import StaticVector Spec.

Lemma deref_read_step (v : SBValue) (default : Z) :
  catch (deref_read v default) (fun _ => Ret None)
  = Ret (step_dereference v default).
Proof.
  unfold deref_read, step_dereference.
  destruct (Val.Dereference v) as [d|e]; cbn [bind catch]; [|reflexivity].
  destruct (Val.IsValid d) as [[|]|e]; cbn [and_then bind catch];
    try reflexivity.
  destruct (Val.GetValueAsUnsigned d default); reflexivity.
Qed.

Lemma parse_text_step {B : Builtins} (v : SBValue) (default : Z) :
  catch (parse_text v default) (fun _ => Ret None)
  = Ret (step_text v default).
Proof.
  unfold parse_text, step_text.
  destruct (Val.GetValue v) as [[s|]|e]; cbn [bind catch]; try reflexivity.
  fold (hex_prefixed (strip s)).
  destruct (strip s) as [|c r] eqn:E; [reflexivity|].
  replace (0 <? Z.of_nat (List.length (c :: r))) with true
    by (symmetry; apply Z.ltb_lt; simpl List.length; lia).
  destruct (hex_prefixed (c :: r)).
  - rewrite deref_read_step. cbn [bind].
    destruct (step_dereference v default); [reflexivity|].
    destruct (int_of_str16 (c :: r)); reflexivity.
  - destruct (int_of_str (c :: r)); reflexivity.
Qed.

(** [_read_unsigned_value] never raises. *)
Lemma read_unsigned_value_returns {B : Builtins} sbval default :
  exists z, _read_unsigned_value sbval default = Ret z.
Proof.
  destruct sbval as [v|]; [|simpl; eauto].
  unfold _read_unsigned_value.
  destruct (Val.IsValid v) as [[|]|e]; cbn [catch or_else py_not bind negb];
    eauto.
  rewrite deref_read_step. cbn [bind].
  destruct (step_dereference v default); eauto.
  rewrite parse_text_step. cbn [bind].
  destruct (step_text v default); eauto.
  destruct (Val.GetValueAsUnsigned v default); simpl; eauto.
Qed.

(** C7.  [_read_unsigned_value] goes through its steps in order:
    (1) one dereference, read when it gives a valid value; (2) the text
    of the field, parsed in base 16 after a second dereference attempt
    when it is hex-prefixed and in base 10 otherwise; (3) the raw
    unsigned accessor.  A step that fails hands over to the next, and
    the default is returned when all fail (or when the field is absent
    or not valid). *)
Theorem C7_coercion_order {B : Builtins} (sbval : option SBValue) (default : Z) :
  _read_unsigned_value sbval default
  = Ret match sbval with
        | Some v =>
            match Val.IsValid v with
            | Ret true => coerce v default
            | _ => default
            end
        | None => default
        end.
Proof.
  destruct sbval as [v|]; [|reflexivity].
  unfold _read_unsigned_value, coerce.
  destruct (Val.IsValid v) as [[|]|e]; cbn [catch or_else py_not bind negb];
    try reflexivity.
  rewrite deref_read_step. cbn [bind first_success].
  destruct (step_dereference v default); [reflexivity|].
  rewrite parse_text_step. cbn [bind].
  destruct (step_text v default); [reflexivity|].
  unfold step_accessor.
  destruct (Val.GetValueAsUnsigned v default); reflexivity.
Qed.

(** The coercer on three shapes of field: text in base 16, text in base
    10, and no text at all. *)
Example coerce_hex_text :
  _read_unsigned_value (B := Host.plain)
    (Some (Host.scalar 7 (Some (lit " 0x10 ")) 0)) 0 = Ret 16.
Proof. reflexivity. Qed.

Example coerce_decimal_text :
  _read_unsigned_value (B := Host.plain)
    (Some (Host.scalar 7 (Some (lit "42")) 0)) 0 = Ret 42.
Proof. reflexivity. Qed.

Example coerce_accessor :
  _read_unsigned_value (B := Host.plain)
    (Some (Host.scalar 7 None 0)) 0 = Ret 7.
Proof. reflexivity. Qed.

Module V := StaticVectorSynthProvider.
Module A := StaticVectorAdapterSynthProvider.

Lemma find_count valobj name n :
  count_reads valobj name n ->
  exists szm, _find_member_recursive valobj name = Ret szm
              /\ unsigned_or_zero szm = Ret n.
Proof.
  intros (m & Hm & [[Hv Hn] | [Hv ->]]); unfold _find_member_recursive;
    rewrite Hm; cbn [bind]; rewrite Hv; cbn [and_then bind].
  - exists (Some m). split; [reflexivity|].
    unfold unsigned_or_zero. rewrite if_valid_valid by exact Hv. exact Hn.
  - exists None. split; reflexivity.
Qed.

Lemma find_absent valobj name :
  member_absent valobj name -> _find_member_recursive valobj name = Ret None.
Proof.
  intros (m & Hm & Hv). unfold _find_member_recursive.
  rewrite Hm; cbn [bind]; rewrite Hv. reflexivity.
Qed.

(** **** Layout resolution of the vector provider *)

Lemma vector_layout_frame p :
  V.valobj (snd (V._compute_layout p)) = V.valobj p
  /\ V._elem_type (snd (V._compute_layout p)) = V._elem_type p
  /\ V._elem_size (snd (V._compute_layout p)) = V._elem_size p.
Proof.
  destruct p as [v et es da sz].
  unfold V._compute_layout, bindS, attr, lift, assign, retS; simpl.
  destruct da, sz; simpl; auto;
    destruct (_find_member_recursive v (lit "elementsCount")) as [szm|];
    simpl; auto;
    destruct (unsigned_or_zero szm); simpl; auto;
    destruct (_find_member_recursive v (lit "arr")) as [arr|]; simpl; auto;
    destruct (if_valid arr _get_arr_first_byte_addr (Ret 0)); simpl; auto.
Qed.

Lemma vector_layout_done p :
  fst (V._compute_layout p) = Ret tt ->
  exists n a, V._size (snd (V._compute_layout p)) = Some n
              /\ V._data_addr (snd (V._compute_layout p)) = Some a.
Proof.
  destruct p as [v et es da sz].
  unfold V._compute_layout, bindS, attr, lift, assign, retS; simpl.
  destruct da, sz; simpl; eauto;
    destruct (_find_member_recursive v (lit "elementsCount")) as [szm|];
    simpl; try discriminate;
    destruct (unsigned_or_zero szm); simpl; try discriminate;
    destruct (_find_member_recursive v (lit "arr")) as [arr|]; simpl;
    try discriminate;
    destruct (if_valid arr _get_arr_first_byte_addr (Ret 0)); simpl;
    try discriminate; eauto.
Qed.

Lemma vector_layout_count p n :
  vector_fresh p ->
  count_reads (V.valobj p) (lit "elementsCount") n ->
  fst (V._compute_layout p) = Ret tt ->
  V._size (snd (V._compute_layout p)) = Some n.
Proof.
  destruct p as [v et es da sz]. intros [Hd Hs] Hc. simpl in Hd, Hs, Hc.
  subst da sz. destruct (find_count Hc) as (szm & Hf & Hu).
  unfold V._compute_layout, bindS, attr, lift, assign, retS; simpl.
  rewrite Hf; simpl. rewrite Hu; simpl.
  destruct (_find_member_recursive v (lit "arr")) as [arr|]; simpl;
    try discriminate.
  destruct (if_valid arr _get_arr_first_byte_addr (Ret 0)); simpl;
    try discriminate.
  reflexivity.
Qed.

(** The three operations once the layout is resolved. *)
Lemma vector_operations p p' n a :
  V._compute_layout p = (Ret tt, p') ->
  V._size p' = Some n -> V._data_addr p' = Some a ->
  V.num_children p = (Ret n, p')
  /\ V.has_children p = (Ret (0 <? n), p')
  /\ forall index,
       V.get_child_at_index index p =
       (bind (or_else (Ret (index <? 0))
                (or_else (Ret (n <=? index))
                   (or_else (py_not (truthy_type (V._elem_type p)))
                      (Ret (a =? 0)))))
          (fun out =>
             if out then Ret SBValue_invalid else
             match V._elem_type p with
             | Some ty =>
                 Val.CreateValueFromAddress (V.valobj p) (child_name index)
                   (a + index * V._elem_size p) ty
             | None => Raise (lit "TypeError")
             end), p').
Proof.
  intros H Hn Ha.
  destruct (vector_layout_frame p) as (Fv & Ft & Fs).
  rewrite H in Fv, Ft, Fs. simpl in Fv, Ft, Fs.
  unfold V.num_children, V.has_children, V.get_child_at_index,
    bindS, attr, lift.
  rewrite H. unfold id. rewrite Hn, Ha, Fv, Ft, Fs. cbn [as_int bind].
  repeat split; reflexivity.
Qed.

(** **** Layout resolution of the adapter provider *)

Section Adapter.
Context {B : Builtins}.

Lemma adapter_layout_frame p :
  A.valobj (snd (A._compute_layout p)) = A.valobj p
  /\ A._elem_type (snd (A._compute_layout p)) = A._elem_type p
  /\ A._elem_size (snd (A._compute_layout p)) = A._elem_size p.
Proof.
  destruct p as [v et es ba sz].
  unfold A._compute_layout, bindS, attr, lift, assign, retS; simpl.
  destruct ba, sz; simpl; auto;
    destruct (_find_member_recursive v (lit "elements_count_")) as [szm|];
    simpl; auto;
    destruct (_read_unsigned_value szm 0); simpl; auto;
    destruct (_find_member_recursive v (lit "elements_")) as [ptr|];
    simpl; auto;
    destruct (unsigned_or_zero ptr); simpl; auto.
Qed.

Lemma adapter_layout_done p :
  fst (A._compute_layout p) = Ret tt ->
  exists n a, A._size (snd (A._compute_layout p)) = Some n
              /\ A._base_addr (snd (A._compute_layout p)) = Some a.
Proof.
  destruct p as [v et es ba sz].
  unfold A._compute_layout, bindS, attr, lift, assign, retS; simpl.
  destruct ba, sz; simpl; eauto;
    destruct (_find_member_recursive v (lit "elements_count_")) as [szm|];
    simpl; try discriminate;
    destruct (_read_unsigned_value szm 0); simpl; try discriminate;
    destruct (_find_member_recursive v (lit "elements_")) as [ptr|];
    simpl; try discriminate;
    destruct (unsigned_or_zero ptr); simpl; try discriminate; eauto.
Qed.

Lemma adapter_layout_count p n :
  adapter_fresh p ->
  adapter_count_reads (A.valobj p) n ->
  fst (A._compute_layout p) = Ret tt ->
  A._size (snd (A._compute_layout p)) = Some n.
Proof.
  destruct p as [v et es ba sz]. intros [Hd Hs] (szm & Hf & Hu).
  simpl in Hd, Hs, Hf. subst ba sz.
  unfold A._compute_layout, bindS, attr, lift, assign, retS; simpl.
  rewrite Hf; simpl. rewrite Hu; simpl.
  destruct (_find_member_recursive v (lit "elements_")) as [ptr|]; simpl;
    try discriminate.
  destruct (unsigned_or_zero ptr); simpl; try discriminate.
  reflexivity.
Qed.

Lemma adapter_operations p p' n a :
  A._compute_layout p = (Ret tt, p') ->
  A._size p' = Some n -> A._base_addr p' = Some a ->
  A.num_children p = (Ret n, p')
  /\ A.has_children p = (Ret (0 <? n), p')
  /\ forall index,
       A.get_child_at_index index p =
       (bind (or_else (Ret (index <? 0))
                (or_else (Ret (n <=? index))
                   (or_else (py_not (truthy_type (A._elem_type p)))
                      (or_else (Ret (a =? 0))
                         (Ret (A._elem_size p =? 0))))))
          (fun out =>
             if out then Ret SBValue_invalid else
             match A._elem_type p with
             | Some ty =>
                 Val.CreateValueFromAddress (A.valobj p) (child_name index)
                   (a + index * A._elem_size p) ty
             | None => Raise (lit "TypeError")
             end), p').
Proof.
  intros H Hn Ha.
  destruct (adapter_layout_frame p) as (Fv & Ft & Fs).
  rewrite H in Fv, Ft, Fs. simpl in Fv, Ft, Fs.
  unfold A.num_children, A.has_children, A.get_child_at_index,
    bindS, attr, lift.
  rewrite H. unfold id. rewrite Hn, Ha, Fv, Ft, Fs. cbn [as_int bind].
  repeat split; reflexivity.
Qed.

End Adapter.

(** **** Index bounds *)






Example vector3_init :
  V.__init__ Examples.vector3 = Ret Examples.vector3_provider.
Proof. reflexivity. Qed.

Example adapter3_init :
  A.__init__ Examples.adapter3 = Ret Examples.adapter3_provider.
Proof. reflexivity. Qed.

(** C9.  For a vector or an adapter whose count field evaluates to 0,
    [has_children] is false and [num_children] is 0; no capacity enters
    the statement. *)
Theorem C9_empty_container {B : Builtins} :
  (forall p,
      vector_fresh p ->
      count_reads (V.valobj p) (lit "elementsCount") 0 ->
      fst (V._compute_layout p) = Ret tt ->
      fst (V.has_children p) = Ret false /\ fst (V.num_children p) = Ret 0)
  /\ (forall p,
      adapter_fresh p ->
      adapter_count_reads (A.valobj p) 0 ->
      fst (A._compute_layout p) = Ret tt ->
      fst (A.has_children p) = Ret false /\ fst (A.num_children p) = Ret 0).
Proof.
  split; intros p Hf Hc Hl.
  - pose proof (vector_layout_count Hf Hc Hl) as Hn.
    destruct (vector_layout_done _ Hl) as (n & a & Hn' & Ha).
    destruct (V._compute_layout p) as [r p'] eqn:E. simpl in *. subst r.
    destruct (@vector_operations p p' 0 a E Hn Ha) as (-> & -> & _).
    split; reflexivity.
  - pose proof (adapter_layout_count Hf Hc Hl) as Hn.
    destruct (adapter_layout_done _ Hl) as (n & a & Hn' & Ha).
    destruct (A._compute_layout p) as [r p'] eqn:E. simpl in *. subst r.
    destruct (@adapter_operations B p p' 0 a E Hn Ha) as (-> & -> & _).
    split; reflexivity.
Qed.

Lemma C9_empty_container_witness :
  (fst (V.has_children Examples.vector0_provider) = Ret false
   /\ fst (V.num_children Examples.vector0_provider) = Ret 0)
  /\ (fst (A.has_children (B := Host.plain) Examples.adapter0_provider)
      = Ret false
      /\ fst (A.num_children (B := Host.plain) Examples.adapter0_provider)
         = Ret 0).
Proof.
  split.
  - apply (proj1 (@C9_empty_container Host.plain) Examples.vector0_provider).
    + split; reflexivity.
    + eexists; split; [reflexivity | left; split; reflexivity].
    + reflexivity.
  - apply (proj2 (@C9_empty_container Host.plain) Examples.adapter0_provider).
    + split; reflexivity.
    + eexists; split; reflexivity.
    + reflexivity.
Defined.

(** C10.  When the member [arr] is absent or invalid,
    [StaticVectorSummary] is [static_vector(size=S)], [S] being the
    count: neither a capacity nor a preview follows. *)
Theorem C10_no_backing_array valobj size :
  count_reads valobj (lit "elementsCount") size ->
  member_absent valobj (lit "arr") ->
  StaticVectorSummary valobj
  = Ret (lit "static_vector(size=" ++ of_int size ++ lit ")").
Proof.
  intros Hc Ha. destruct (find_count Hc) as (szm & Hf & Hu).
  unfold StaticVectorSummary, StaticVectorSummary_try.
  rewrite Hf; cbn [bind]. rewrite Hu; cbn [bind].
  rewrite (find_absent Ha). reflexivity.
Qed.

Lemma C10_no_backing_array_witness :
  StaticVectorSummary Examples.vector_no_arr
  = Ret (lit "static_vector(size=" ++ of_int 3 ++ lit ")").
Proof.
  apply (@C10_no_backing_array Examples.vector_no_arr 3).
  - eexists; split; [reflexivity | left; split; reflexivity].
  - eexists; split; reflexivity.
Defined.

(** **** Zero stride *)

(** The adapter hands out no child when the stride is 0. *)
Lemma adapter_zero_stride_absent {B : Builtins} p :
  A._elem_size p = 0 ->
  fst (A._compute_layout p) = Ret tt ->
  (exists t, truthy_type (A._elem_type p) = Ret t) ->
  forall i, absent_child (fst (A.get_child_at_index i p)).
Proof.
  intros Hs Hl [t Ht] i.
  destruct (adapter_layout_done _ Hl) as (n & a & Hn & Ha).
  destruct (A._compute_layout p) as [r p'] eqn:E. simpl in *. subst r.
  destruct (@adapter_operations B p p' n a E Hn Ha) as (_ & _ & G).
  rewrite G, Hs, Ht. unfold absent_child. cbn [fst py_not bind].
  destruct (i <? 0), (n <=? i), t, (a =? 0); reflexivity.
Qed.

(** Neither does the vector when the element type is unresolved. *)
Lemma vector_unresolved_type_absent p :
  truthy_type (V._elem_type p) = Ret false ->
  fst (V._compute_layout p) = Ret tt ->
  forall i, absent_child (fst (V.get_child_at_index i p)).
Proof.
  intros Ht Hl i.
  destruct (vector_layout_done _ Hl) as (n & a & Hn & Ha).
  destruct (V._compute_layout p) as [r p'] eqn:E. simpl in *. subst r.
  destruct (@vector_operations p p' n a E Hn Ha) as (_ & _ & G).
  rewrite G, Ht. unfold absent_child. cbn [fst py_not bind].
  destruct (i <? 0), (n <=? i); reflexivity.
Qed.




Example incomplete_providers_init :
  V.__init__ Examples.vector_incomplete
  = Ret Examples.vector_incomplete_provider
  /\ A.__init__ Examples.adapter_incomplete
     = Ret Examples.adapter_incomplete_provider.
Proof. split; reflexivity. Qed.

(** **** The array-backing locator *)

Lemma has_elements_valid m :
  has_elements m = Ret true -> Val.IsValid m = Ret true.
Proof. intros H. apply and_then_true in H. tauto. Qed.




(** **** Fresh providers and the examples of the specification *)

Lemma vector_init_fresh valobj p :
  V.__init__ valobj = Ret p -> vector_fresh p /\ V.valobj p = valobj.
Proof.
  unfold V.__init__.
  destruct (_get_template_elem_type valobj) as [t|e]; cbn [bind];
    [|discriminate].
  destruct (byte_size_or_zero t) as [z|e]; cbn [bind]; [|discriminate].
  intros [= <-]. repeat split.
Qed.

Lemma vector_update_fresh p :
  fst (V.update p) = Ret tt -> vector_fresh (snd (V.update p)).
Proof.
  unfold V.update, bindS, attr, lift, assign, id.
  destruct (_get_template_elem_type (V.valobj p)) as [t|e]; cbn;
    [|discriminate].
  destruct (byte_size_or_zero t) as [z|e]; cbn; [|discriminate].
  intros _. split; reflexivity.
Qed.

Lemma adapter_init_fresh valobj p :
  A.__init__ valobj = Ret p -> adapter_fresh p /\ A.valobj p = valobj.
Proof.
  unfold A.__init__.
  destruct (_get_template_elem_type valobj) as [t|e]; cbn [bind];
    [|discriminate].
  destruct (byte_size_or_zero t) as [z|e]; cbn [bind]; [|discriminate].
  intros [= <-]. repeat split.
Qed.

Lemma adapter_update_fresh p :
  fst (A.update p) = Ret tt -> adapter_fresh (snd (A.update p)).
Proof.
  unfold A.update, bindS, attr, lift, assign, id.
  destruct (_get_template_elem_type (A.valobj p)) as [t|e]; cbn;
    [|discriminate].
  destruct (byte_size_or_zero t) as [z|e]; cbn; [|discriminate].
  intros _. split; reflexivity.
Qed.

(** Three elements of two bytes in ten bytes: capacity 5, three elements
    shown, no ellipsis. *)
Example vector3_summary :
  StaticVectorSummary Examples.vector3
  = Ret (lit "static_vector(size=3, cap=5) [4096, 4098, 4100]").
Proof. reflexivity. Qed.

(** An empty adapter: no preview follows. *)
Example adapter0_summary :
  StaticVectorAdapterSummary (B := Host.plain) Examples.adapter0
  = Ret (lit "static_vector_adapter(size=0, cap=8)").
Proof. reflexivity. Qed.

End StaticVectorFacts.

Module Decoders.
Import StaticString StaticVector Spec.
Module V := StaticVectorSynthProvider.
Module A := StaticVectorAdapterSynthProvider.

(** Each of the three summaries returns a string for every inspected
    value: an exception raised inside becomes the error placeholder that
    carries its text.  The value coercer never raises either. *)
Lemma summaries_always_return {B : Builtins} :
  (forall valobj,
      (exists s, static_string_summary valobj = Ret s)
      /\ forall e, static_string_summary_try valobj = Raise e ->
                   static_string_summary valobj
                   = Ret (lit "<static_string: error " ++ e ++ lit ">"))
  /\ (forall valobj,
      (exists s, StaticVectorSummary valobj = Ret s)
      /\ forall e, StaticVectorSummary_try valobj = Raise e ->
                   StaticVectorSummary valobj
                   = Ret (lit "<static_vector: error " ++ e ++ lit ">"))
  /\ (forall valobj,
      (exists s, StaticVectorAdapterSummary valobj = Ret s)
      /\ forall e, StaticVectorAdapterSummary_try valobj = Raise e ->
                   StaticVectorAdapterSummary valobj
                   = Ret (lit "<static_vector_adapter: error " ++ e ++ lit ">"))
  /\ (forall sbval default,
      exists z, _read_unsigned_value sbval default = Ret z).
Proof.
  split; [|split; [|split]].
  - intros v. split; [apply catch_returns|].
    intros e H. unfold static_string_summary. rewrite H. reflexivity.
  - intros v. split; [apply catch_returns|].
    intros e H. unfold StaticVectorSummary. rewrite H. reflexivity.
  - intros v. split; [apply catch_returns|].
    intros e H. unfold StaticVectorAdapterSummary. rewrite H. reflexivity.
  - intros. apply StaticVectorFacts.read_unsigned_value_returns.
Qed.

(** C1, at the input where the code departs from it.  The pointer of the
    adapter is eight bytes below the end of the address space and it
    counts four elements of eight bytes.  The element at index 1 would
    lie at [2^64]; the debugger binding rejects that address with an
    exception.  [get_child_at_index 1] has no handler and the exception
    reaches the caller, where the claim has an absent child; the summary
    of the same value meets the same exception in its preview and turns
    it into its error placeholder. *)
Theorem C1_provider_exception_escapes :
  A.__init__ Examples.adapter_wild = Ret Examples.adapter_wild_provider
  /\ fst (A._compute_layout (B := Host.plain) Examples.adapter_wild_provider)
     = Ret tt
  /\ fst (A.num_children (B := Host.plain) Examples.adapter_wild_provider)
     = Ret 4
  /\ fst (A.get_child_at_index (B := Host.plain) 1
            Examples.adapter_wild_provider)
     = Raise (lit "OverflowError")
  /\ ~ absent_child
        (fst (A.get_child_at_index (B := Host.plain) 1
                Examples.adapter_wild_provider))
  /\ StaticVectorAdapterSummary (B := Host.plain) Examples.adapter_wild
     = Ret (lit "<static_vector_adapter: error OverflowError>").
Proof.
  split; [reflexivity|]. split; [reflexivity|]. split; [reflexivity|].
  split; [reflexivity|]. split; [|reflexivity].
  unfold absent_child. vm_compute. discriminate.
Qed.

End Decoders.

(** ** Further properties of [pretty_static_string.py] *)

Module StaticStringMore.
Import StaticString Spec Resolve.

Lemma range_bounds (n i : Z) : In i (range n) -> 0 <= i < n.
Proof.
  unfold range. rewrite in_map_iff. intros (k & <- & Hk).
  apply in_seq in Hk. lia.
Qed.

(** X1.  A member that [_find_member_recursive] returns is a valid member
    of that name, held by the value itself or by a chain of valid
    base-class children. *)
Theorem X1_find_member_sound valobj name m :
  _find_member_recursive valobj name = Ret (Some m) ->
  inherits_member valobj name m.
Proof.
  revert name m. induction valobj using children_ind; intros name m.
  - discriminate.
  - simpl. destruct (mem name) as [m0|e] eqn:Em; simpl; [|discriminate].
    destruct (and_then (Val.IsValid m0) (Val.IsValid m0)) as [[|]|e] eqn:E;
      simpl; try discriminate.
    + intros [= <-]. apply and_then_true in E.
      apply own_member; [exact Em | tauto].
    + destruct n as [k|e] eqn:En; simpl; [|discriminate].
      assert (Hr : forall i, In i (range k) -> 0 <= i < k)
        by (intros; apply range_bounds; assumption).
      remember (range k) as idx eqn:Hidx. clear Hidx.
      induction idx as [|i rest IH]; [discriminate|].
      destruct (ch i) as [child|e] eqn:Ec; [|discriminate].
      destruct (and_then (Val.IsValid child) _) as [[|]|e] eqn:Eb; simpl;
        try discriminate; [|apply IH; intros; apply Hr; right; assumption].
      destruct (_find_member_recursive child name) as [r|e] eqn:Er; simpl;
        [|discriminate].
      destruct (and_then (truthy r) (truthy r)) as [[|]|e] eqn:F; simpl;
        try discriminate; [|apply IH; intros; apply Hr; right; assumption].
      intros [= ->].
      apply and_then_true in Eb as [Hv Hb].
      apply and_then_true in Hb as [_ Hb].
      eapply base_member with (i := i) (child := child); simpl; eauto.
      apply Hr. left. reflexivity.
Qed.

Lemma X1_find_member_sound_witness :
  inherits_member (Variants.derived_string 4096 4101 16 (Host.bytes_of "hello"))
    (lit "tail_") (Host.scalar 4101 None 0).
Proof.
  apply (@X1_find_member_sound
           (Variants.derived_string 4096 4101 16 (Host.bytes_of "hello"))
           (lit "tail_") (Host.scalar 4101 None 0)).
  reflexivity.
Defined.

(** Without a valid member of the name in the value itself, an exception
    of [IsBaseClass()] on the first valid child leaves the resolver. *)
Lemma resolver_raises valobj name m e :
  Val.GetChildMemberWithName valobj name = Ret m ->
  Val.IsValid m = Ret false ->
  first_valid_child_raises valobj e ->
  _find_member_recursive valobj name = Raise e.
Proof.
  destruct valobj as [|a mem nn ch bc gu gv gs de ao la ty tg cv]; simpl.
  - intros _ _ (n & k & c & [= <-] & Hk & _). simpl in Hk. lia.
  - intros -> Hv (n & k & child & Hn & Hk & Hbefore & Hchild & Hcv & Hb).
    simpl in Hn, Hbefore, Hchild. subst nn. simpl. rewrite Hv. simpl.
    unfold range.
    match goal with
    | |- ?loop (map Z.of_nat (seq 0 (Z.to_nat n))) = _ =>
        assert (G : forall len start,
                   (start <= k < start + len)%nat ->
                   loop (map Z.of_nat (seq start len)) = Raise e)
    end.
    { induction len as [|len IH]; intros start Hs; [lia|].
      cbn [seq map].
      destruct (Nat.eq_dec start k) as [->|Hne].
      - rewrite Hchild, Hcv. simpl. rewrite Hb. reflexivity.
      - destruct (Hbefore start) as (c & -> & Hi); [lia|].
        rewrite Hi. simpl. apply IH. lia. }
    apply G. lia.
Qed.

Lemma resolver_with_own_member valobj name :
  member_present valobj name ->
  exists m, _find_member_recursive valobj name = Ret (Some m).
Proof.
  intros (m & Hm & Hv). exists m.
  destruct valobj as [|a mem nn ch bc gu gv gs de ao la ty tg cv];
    simpl in *.
  - injection Hm as <-. discriminate.
  - rewrite Hm. simpl. rewrite Hv. reflexivity.
Qed.

(** X2.  When the value has no valid member of the name itself, the
    resolver goes through its children: it returns [None] when none of
    them is valid, and an exception raised by [IsBaseClass()] on the
    first valid child leaves the resolver. *)
Theorem X2_resolver_asks_children valobj name m :
  Val.GetChildMemberWithName valobj name = Ret m ->
  Val.IsValid m = Ret false ->
  (no_valid_child valobj -> _find_member_recursive valobj name = Ret None)
  /\ (forall e, first_valid_child_raises valobj e ->
                _find_member_recursive valobj name = Raise e).
Proof.
  intros Hm Hv. split; [|intros e; apply (@resolver_raises _ _ _ e Hm Hv)].
  destruct valobj as [|a mem nn ch bc gu gv gs de ao la ty tg cv];
    [reflexivity|].
  simpl in Hm. intros (n & Hn & Hc). simpl in Hn, Hc. subst nn.
  simpl. rewrite Hm. simpl. rewrite Hv. simpl.
  assert (Hr : forall i, In i (range n) -> 0 <= i < n)
    by (intros; apply range_bounds; assumption).
  induction (range n) as [|i rest IH]; [reflexivity|].
  destruct (Hc i) as (c & -> & Hi); [apply Hr; left; reflexivity|].
  rewrite Hi. simpl. apply IH. intros; apply Hr; right; assumption.
Qed.

Lemma X2_resolver_asks_children_witness :
  _find_member_recursive Variants.childless (lit "head_") = Ret None
  /\ _find_member_recursive
       (Variants.no_capacity 4096 4101 (Host.bytes_of "hello"))
       (lit "max_length_")
     = Raise (lit "'SBValue' object has no attribute 'IsBaseClass'").
Proof.
  split.
  - apply (proj1 (@X2_resolver_asks_children Variants.childless
                    (lit "head_") SBValue_invalid eq_refl eq_refl)).
    exists 0. split; [reflexivity|]. intros i Hi. lia.
  - apply (proj2 (@X2_resolver_asks_children
                    (Variants.no_capacity 4096 4101 (Host.bytes_of "hello"))
                    (lit "max_length_") SBValue_invalid eq_refl eq_refl)).
    exists 2, 0%nat, (Host.scalar 4096 None 0).
    split; [reflexivity|]. split; [simpl; lia|].
    split; [intros i Hi; lia|].
    split; [reflexivity|]. split; reflexivity.
Defined.

(** X3.  When each of the three fields is either a valid member of the
    value itself or missing, at least one is missing, and the first valid
    child answers [IsBaseClass()] with an exception, the summary is the
    error placeholder that carries this exception, not the layout
    placeholder. *)
Theorem X3_missing_field_error {B : Builtins} valobj target process e :
  Val.GetTarget valobj = Ret target ->
  GetProcess target = Ret process ->
  first_valid_child_raises valobj e ->
  (forall name, In name string_fields ->
                member_present valobj name \/ member_absent valobj name) ->
  (exists name, In name string_fields /\ member_absent valobj name) ->
  static_string_summary valobj
  = Ret (lit "<static_string: error " ++ e ++ lit ">").
Proof.
  intros Ht Hp Hraise Heach Hmiss.
  assert (Habs : forall name, member_absent valobj name ->
                              _find_member_recursive valobj name = Raise e).
  { intros name (m & Hm & Hv).
    exact (@resolver_raises _ _ _ e Hm Hv Hraise). }
  assert (Hnot : forall name, member_present valobj name ->
                              ~ member_absent valobj name).
  { intros name (m & Hm & Hv) (m' & Hm' & Hv'). congruence. }
  unfold static_string_summary, static_string_summary_try.
  rewrite Ht; cbn [bind]. rewrite Hp; cbn [bind].
  destruct (Heach (lit "head_")) as [Hh | Hh]; [simpl; auto | |];
    [|rewrite (Habs _ Hh); reflexivity].
  destruct (resolver_with_own_member Hh) as (h & ->). cbn [bind].
  destruct (Heach (lit "tail_")) as [Htl | Htl]; [simpl; auto | |];
    [|rewrite (Habs _ Htl); reflexivity].
  destruct (resolver_with_own_member Htl) as (t & ->). cbn [bind].
  destruct (Heach (lit "max_length_")) as [Hm | Hm]; [simpl; auto | |];
    [|rewrite (Habs _ Hm); reflexivity].
  exfalso. destruct Hmiss as (name & Hin & Ha).
  simpl in Hin. destruct Hin as [<- | [<- | [<- | []]]];
    [exact (Hnot _ Hh Ha) | exact (Hnot _ Htl Ha) | exact (Hnot _ Hm Ha)].
Qed.

Lemma X3_missing_field_error_witness :
  static_string_summary (B := Host.plain)
    (Variants.no_capacity 4096 4101 (Host.bytes_of "hello"))
  = Ret (lit "<static_string: error "
           ++ lit "'SBValue' object has no attribute 'IsBaseClass'"
           ++ lit ">").
Proof.
  apply (@X3_missing_field_error Host.plain
           (Variants.no_capacity 4096 4101 (Host.bytes_of "hello"))
           {| GetProcess := Ret (Host.process 4096 (Host.bytes_of "hello")) |}
           (Host.process 4096 (Host.bytes_of "hello"))
           (lit "'SBValue' object has no attribute 'IsBaseClass'")).
  - reflexivity.
  - reflexivity.
  - exists 2, 0%nat, (Host.scalar 4096 None 0).
    split; [reflexivity|]. split; [simpl; lia|].
    split; [intros i Hi; lia|].
    split; [reflexivity|]. split; reflexivity.
  - intros name [<- | [<- | [<- | []]]].
    + left. eexists. split; reflexivity.
    + left. eexists. split; reflexivity.
    + right. eexists. split; reflexivity.
  - exists (lit "max_length_"). split; [simpl; auto|].
    eexists. split; reflexivity.
Defined.

(** The number of bytes asked of the process lies between 0 and 1024. *)
Lemma preview_len_range (head_addr tail_addr cap : Z) :
  0 <= Z.min (clamp_length head_addr tail_addr cap) 1024 <= 1024.
Proof. unfold clamp_length. lia. Qed.

(** X4.  The summary depends on the memory of the process only through
    reads of at most 1024 bytes at the head address: two inspected
    strings with the same three field values, whose processes agree on
    every such read, have the same summary. *)
Theorem X4_read_is_capped {B : Builtins} valobj valobj' process process'
    head_addr tail_addr cap :
  string_layout valobj process head_addr tail_addr cap ->
  string_layout valobj' process' head_addr tail_addr cap ->
  (forall n, 0 <= n <= 1024 ->
     ReadMemory process head_addr n = ReadMemory process' head_addr n) ->
  static_string_summary valobj = static_string_summary valobj'.
Proof.
  intros L L' Hagree. unfold static_string_summary.
  rewrite (StaticStringFacts.summary_resolved L),
    (StaticStringFacts.summary_resolved L').
  destruct ((head_addr =? 0) || (tail_addr =? 0) || (tail_addr <? head_addr));
    [reflexivity|].
  cbv zeta. rewrite Hagree by apply preview_len_range. reflexivity.
Qed.

Lemma X4_read_is_capped_witness :
  static_string_summary (B := Host.plain)
    (Host.static_string 4096 9000 0 (repeat x61 3000))
  = static_string_summary (B := Host.plain)
      (Variants.capped_string 4096 9000 0 (repeat x61 3000)).
Proof.
  apply (@X4_read_is_capped Host.plain _ _
           (Host.process 4096 (repeat x61 3000))
           (Variants.capped_process 4096 (repeat x61 3000)) 4096 9000 0).
  - split; eexists; split; reflexivity.
  - split; eexists; split; reflexivity.
  - intros n Hn. unfold Variants.capped_process. cbn [ReadMemory].
    replace (n <=? 1024) with true by (symmetry; apply Z.leb_le; lia).
    reflexivity.
Defined.

(** X5.  When the read fails or hands back nothing, the summary is the
    unreadable-memory marker followed by the clamped length and the
    capacity. *)
Theorem X5_unreadable_memory {B : Builtins} valobj process
    head_addr tail_addr cap r :
  string_layout valobj process head_addr tail_addr cap ->
  head_addr <> 0 -> tail_addr <> 0 -> head_addr <= tail_addr ->
  ReadMemory process head_addr
    (Z.min (clamp_length head_addr tail_addr cap) 1024) = Ret r ->
  fst r = None \/ snd r = true ->
  static_string_summary valobj
  = Ret (lit "<static_string: unreadable memory> len="
           ++ of_int (clamp_length head_addr tail_addr cap)
           ++ lit " cap=" ++ of_int cap).
Proof.
  intros L Hh Ht Hle Hr Hbad. unfold static_string_summary.
  rewrite (StaticStringFacts.summary_resolved L).
  rewrite (StaticStringFacts.proper_span Hh Ht Hle).
  cbv zeta. rewrite Hr. cbn [bind].
  destruct r as [[data|] [|]]; simpl in Hbad; try reflexivity.
  destruct Hbad; discriminate.
Qed.

Lemma X5_unreadable_memory_witness :
  static_string_summary (B := Host.plain)
    (Variants.unmapped_string 4096 4101 16)
  = Ret (lit "<static_string: unreadable memory> len="
           ++ of_int (clamp_length 4096 4101 16)
           ++ lit " cap=" ++ of_int 16).
Proof.
  apply (@X5_unreadable_memory Host.plain _ (Host.process 0 [])
           4096 4101 16 (None, true)).
  - split; eexists; split; reflexivity.
  - discriminate.
  - discriminate.
  - discriminate.
  - reflexivity.
  - left. reflexivity.
Defined.

Lemma in_replace1 (old : char) (new s : pystr) (c : char) :
  In c (replace1 old new s) -> In c new \/ (In c s /\ c <> old).
Proof.
  unfold replace1. rewrite in_flat_map. intros (x & Hx & Hc).
  destruct (char_eqb x old) eqn:E; [left; exact Hc|].
  right. destruct Hc as [<- | []]. split; [exact Hx|].
  intros ->. unfold char_eqb in E. rewrite N.eqb_refl in E. discriminate.
Qed.

Lemma escape_no_control (s : pystr) (c : char) :
  In c (escape s) -> c <> 10%N /\ c <> 13%N /\ c <> 9%N.
Proof.
  unfold escape. intros H.
  apply in_replace1 in H as [H | [H H9]].
  { simpl in H. repeat split; intros ->; intuition discriminate. }
  apply in_replace1 in H as [H | [H H13]].
  { simpl in H. repeat split; intros ->; intuition discriminate. }
  apply in_replace1 in H as [H | [H H10]].
  { simpl in H. repeat split; intros ->; intuition discriminate. }
  repeat split; assumption.
Qed.

(** X6.  The text put between the quotes has at most 201 characters, and
    no newline, carriage return or tab is left in it. *)
Theorem X6_display_bounded (s : pystr) :
  (List.length (display s) <= 201)%nat
  /\ forall c, In c (display s) -> c <> 10%N /\ c <> 13%N /\ c <> 9%N.
Proof.
  unfold display. cbv zeta.
  destruct (200 <? Z.of_nat (List.length (escape s))) eqn:E.
  - split.
    + rewrite length_app, length_firstn. cbn [List.length]. lia.
    + intros c Hc. apply in_app_or in Hc as [Hc | [<- | []]].
      * apply (escape_no_control s).
        rewrite <- (firstn_skipn 200 (escape s)). apply in_or_app. left.
        exact Hc.
      * repeat split; discriminate.
  - apply Z.ltb_ge in E. split; [lia|]. apply escape_no_control.
Qed.

Lemma find_nul_from_cases (b : list byte) :
  forall i, 0 <= i ->
    (find_nul_from i b = -1 /\ ~ In x00 b)
    \/ exists k, find_nul_from i b = i + Z.of_nat k
                 /\ ~ In x00 (firstn k b)
                 /\ nth_error b k = Some x00.
Proof.
  induction b as [|y r IH]; intros i Hi.
  - left. split; [reflexivity | intros []].
  - simpl. destruct (Byte.eqb y x00) eqn:E.
    + apply Byte.byte_dec_bl in E. subst y. right. exists 0%nat.
      split; [simpl; lia|]. split; [intros [] | reflexivity].
    + assert (Hy : y <> x00).
      { intros ->. vm_compute in E. discriminate. }
      destruct (IH (i + 1) ltac:(lia)) as [[H1 H2] | (k & H1 & H2 & H3)].
      * left. split; [exact H1|]. intros [H | H]; [congruence | tauto].
      * right. exists (S k). split; [lia|]. split; [|exact H3].
        simpl. intros [H | H]; [congruence | tauto].
Qed.

(** X7.  Truncation at the first NUL gives a prefix of the bytes read
    that holds no NUL, and gives the bytes unchanged when they hold
    none. *)
Theorem X7_nul_truncate (data : list byte) :
  (exists rest, data = nul_truncate data ++ rest)
  /\ ~ In x00 (nul_truncate data)
  /\ (~ In x00 data -> nul_truncate data = data).
Proof.
  unfold nul_truncate, find_nul.
  destruct (@find_nul_from_cases data 0 ltac:(lia))
    as [[H1 H2] | (k & H1 & H2 & H3)].
  - rewrite H1. simpl. split; [exists []; symmetry; apply app_nil_r|].
    split; auto.
  - rewrite H1. simpl.
    replace (Z.of_nat k =? -1) with false by (symmetry; apply Z.eqb_neq; lia).
    simpl. rewrite Nat2Z.id. split.
    + exists (skipn k data). symmetry. apply firstn_skipn.
    + split; [exact H2|]. intros Hno. exfalso. apply Hno.
      eapply nth_error_In. exact H3.
Qed.

(** X8.  The clamped length is never negative, never above [2^31], never
    above a nonzero capacity taken as at least 0, and never above the
    distance from head to tail taken as at least 0; so at most 1024 bytes
    and never a negative number of bytes are asked for. *)
Theorem X8_length_bounds (head_addr tail_addr cap : Z) :
  0 <= clamp_length head_addr tail_addr cap <= 2 ^ 31
  /\ clamp_length head_addr tail_addr cap <= Z.max 0 (tail_addr - head_addr)
  /\ (cap = 0 \/ clamp_length head_addr tail_addr cap <= Z.max 0 cap)
  /\ 0 <= Z.min (clamp_length head_addr tail_addr cap) 1024 <= 1024.
Proof.
  unfold clamp_length. change (Z.shiftl 1 31) with (2 ^ 31).
  destruct (cap =? 0) eqn:E; simpl.
  - apply Z.eqb_eq in E. lia.
  - apply Z.eqb_neq in E. lia.
Qed.

End StaticStringMore.

(** ** Further properties of [pretty_static_vector.py] *)

Module StaticVectorMore.
Import StaticVector Spec.
Module V := StaticVectorSynthProvider.
Module A := StaticVectorAdapterSynthProvider.

(** X9.  When the array handle shows neither [_M_elems] nor [__elems_],
    [_get_arr_num_bytes] does not raise, and it is 0 whenever asking for
    the type of the array or for its second template argument raises. *)
Theorem X9_num_bytes_fallback arr m e :
  Val.GetChildMemberWithName arr (lit "_M_elems") = Ret m ->
  Val.IsValid m = Ret false ->
  Val.GetChildMemberWithName arr (lit "__elems_") = Ret e ->
  Val.IsValid e = Ret false ->
  (exists n, _get_arr_num_bytes arr = Ret n)
  /\ (forall t x, Val.GetType arr = Ret t ->
        Ty.GetTemplateArgumentAsUnsigned t 1 = Raise x ->
        _get_arr_num_bytes arr = Ret 0)
  /\ (forall x, Val.GetType arr = Raise x -> _get_arr_num_bytes arr = Ret 0).
Proof.
  intros Hm Hmv He Hev. unfold _get_arr_num_bytes.
  rewrite Hm; cbn [bind]. rewrite Hmv; cbn [and_then bind].
  rewrite He; cbn [bind]. rewrite Hev; cbn [and_then bind].
  split; [|split].
  - destruct (Val.GetType arr) as [t|x]; cbn [bind catch]; eauto.
    destruct (Ty.GetTemplateArgumentAsUnsigned t 1); cbn [catch]; eauto.
  - intros t x -> H. cbn [bind]. rewrite H. reflexivity.
  - intros x ->. reflexivity.
Qed.

Lemma X9_num_bytes_fallback_witness :
  _get_arr_num_bytes Variants.opaque_array = Ret 0.
Proof.
  destruct (@X9_num_bytes_fallback Variants.opaque_array
              SBValue_invalid SBValue_invalid eq_refl eq_refl eq_refl eq_refl)
    as (_ & H & _).
  exact (H (Host.template SBType_invalid 24)
           (lit "'SBType' object has no attribute 'GetTemplateArgumentAsUnsigned'")
           eq_refl eq_refl).
Defined.





Lemma byte_size_truth (t : SBType) (es : Z) :
  byte_size_or_zero (Some t) = Ret es ->
  exists b, Ty.IsValid t = Ret b /\ (b = false -> es = 0).
Proof.
  cbn [byte_size_or_zero].
  destruct (Ty.IsValid t) as [[|]|x]; cbn [bind]; [| |discriminate].
  - intros _. exists true. split; [reflexivity | discriminate].
  - intros [= <-]. exists false. split; reflexivity.
Qed.

(** X10.  With a valid backing array, the vector summary that is
    returned starts with [static_vector(size=S, cap=C)], where [C] is the
    number of backing bytes divided by the element size, rounded down,
    and 0 when the element size is 0; nothing follows when the count is
    not positive. *)
Theorem X10_vector_summary_header valobj size arr elem_type elem_sz total :
  count_reads valobj (lit "elementsCount") size ->
  Val.GetChildMemberWithName valobj (lit "arr") = Ret arr ->
  Val.IsValid arr = Ret true ->
  _get_template_elem_type valobj = Ret elem_type ->
  byte_size_or_zero elem_type = Ret elem_sz ->
  _get_arr_num_bytes arr = Ret total ->
  let header :=
    lit "static_vector(size=" ++ of_int size ++ lit ", cap="
      ++ of_int (if elem_sz =? 0 then 0 else total / elem_sz) ++ lit ")" in
  (forall s, StaticVectorSummary_try valobj = Ret s ->
             exists preview, s = header ++ preview)
  /\ (size <= 0 -> StaticVectorSummary valobj = Ret header).
Proof.
  intros Hc Ha Hav Ht Hs Hn header.
  destruct (StaticVectorFacts.find_count Hc) as (szm & Hf & Hu).
  assert (Hfa : _find_member_recursive valobj (lit "arr") = Ret (Some arr)).
  { unfold _find_member_recursive. rewrite Ha; cbn [bind]. rewrite Hav.
    reflexivity. }
  unfold StaticVectorSummary, StaticVectorSummary_try.
  rewrite Hf; cbn [bind]. rewrite Hu; cbn [bind]. rewrite Hfa; cbn [bind].
  rewrite if_valid_valid by exact Hav.
  rewrite Ht; cbn [bind]. rewrite Hs; cbn [bind]. rewrite Hn; cbn [bind].
  replace (if negb (elem_sz =? 0) then total / elem_sz else 0)
    with (if elem_sz =? 0 then 0 else total / elem_sz)
    by (destruct (elem_sz =? 0); reflexivity).
  split.
  - intros s.
    match goal with
    | |- bind ?m _ = _ -> _ => destruct m as [preview|x]
    end; cbn [bind]; [|discriminate].
    intros [= <-]. exists preview. unfold header.
    rewrite <- !app_assoc. reflexivity.
  - intros Hle. destruct elem_type as [t|].
    + replace (0 <? size) with false by (symmetry; apply Z.ltb_ge; exact Hle).
      cbn [and_then bind catch]. unfold header.
      rewrite app_nil_r. reflexivity.
    + cbn [bind catch]. unfold header.
      rewrite app_nil_r. reflexivity.
Qed.

Lemma X10_vector_summary_header_witness :
  (forall s, StaticVectorSummary_try Examples.vector0 = Ret s ->
             exists preview,
               s = (lit "static_vector(size=" ++ of_int 0 ++ lit ", cap="
                      ++ of_int (if 2 =? 0 then 0 else 10 / 2) ++ lit ")")
                   ++ preview)
  /\ (0 <= 0 ->
      StaticVectorSummary Examples.vector0
      = Ret (lit "static_vector(size=" ++ of_int 0 ++ lit ", cap="
               ++ of_int (if 2 =? 0 then 0 else 10 / 2) ++ lit ")")).
Proof.
  apply (@X10_vector_summary_header Examples.vector0 0
           (Host.byte_array "_M_elems" 4096 10) (Some Examples.short) 2 10).
  - eexists; split; [reflexivity | left; split; reflexivity].
  - reflexivity.
  - reflexivity.
  - reflexivity.
  - reflexivity.
  - reflexivity.
Defined.

(** X12.  The adapter summary has no preview, and so makes no view of
    any element, when the count is not positive, or the element pointer
    is null, or the element size is not positive: it is exactly
    [static_vector_adapter(size=S, cap=C)]. *)
Theorem X12_adapter_no_preview {B : Builtins} valobj size capm cap
    elem_type elem_sz ptr base :
  adapter_count_reads valobj size ->
  _find_member_recursive valobj (lit "max_elements_count_") = Ret capm ->
  _read_unsigned_value capm 0 = Ret cap ->
  _get_template_elem_type valobj = Ret elem_type ->
  byte_size_or_zero elem_type = Ret elem_sz ->
  _find_member_recursive valobj (lit "elements_") = Ret ptr ->
  unsigned_or_zero ptr = Ret base ->
  size <= 0 \/ base = 0 \/ elem_sz <= 0 ->
  StaticVectorAdapterSummary valobj
  = Ret (lit "static_vector_adapter(size=" ++ of_int size ++ lit ", cap="
           ++ of_int cap ++ lit ")").
Proof.
  intros (szm & Hf & Hu) Hcm Hc Ht Hs Hp Hb Hno.
  unfold StaticVectorAdapterSummary, StaticVectorAdapterSummary_try.
  rewrite Hf; cbn [bind]. rewrite Hu; cbn [bind].
  rewrite Hcm; cbn [bind]. rewrite Hc; cbn [bind].
  rewrite Ht; cbn [bind]. rewrite Hs; cbn [bind].
  rewrite Hp; cbn [bind]. rewrite Hb; cbn [bind].
  assert (Hpre :
    match elem_type with
    | Some t =>
        bind (and_then (Ret (0 <? size))
                (and_then (Ty.IsValid t)
                   (and_then (Ty.IsValid t)
                      (Ret (negb (base =? 0) && (0 <? elem_sz))))))
          (fun c => if c then render_preview valobj base elem_sz t size
                    else Ret [])
    | None => Ret []
    end = Ret []).
  { destruct elem_type as [t|]; [|reflexivity].
    destruct (byte_size_truth _ Hs) as (b & Hv & Hz). rewrite Hv.
    destruct (0 <? size) eqn:E1; cbn [and_then bind]; [|reflexivity].
    destruct b; cbn [and_then bind]; [|reflexivity].
    replace (negb (base =? 0) && (0 <? elem_sz)) with false; [reflexivity|].
    symmetry. apply Z.ltb_lt in E1.
    destruct Hno as [H | [H | H]]; [lia | |].
    - subst base. reflexivity.
    - replace (0 <? elem_sz) with false by (symmetry; apply Z.ltb_ge; lia).
      apply andb_false_r. }
  rewrite Hpre. cbn [bind catch]. rewrite app_nil_r. reflexivity.
Qed.

Lemma X12_adapter_no_preview_witness :
  StaticVectorAdapterSummary (B := Host.plain) Variants.adapter_no_pointer
  = Ret (lit "static_vector_adapter(size=" ++ of_int 3 ++ lit ", cap="
           ++ of_int 8 ++ lit ")").
Proof.
  apply (@X12_adapter_no_preview Host.plain Variants.adapter_no_pointer 3
           (Some (Host.scalar 8 (Some (of_int 8)) 0)) 8
           (Some Examples.long) 8 None 0).
  - eexists; split; reflexivity.
  - reflexivity.
  - reflexivity.
  - reflexivity.
  - reflexivity.
  - reflexivity.
  - reflexivity.
  - right; left; reflexivity.
Defined.

(** **** The layout cache *)

Lemma vector_cached p n a :
  V._size p = Some n -> V._data_addr p = Some a ->
  V._compute_layout p = (Ret tt, p).
Proof.
  destruct p as [v et es da sz]. simpl. intros -> ->. reflexivity.
Qed.

Lemma adapter_cached {B : Builtins} p n a :
  A._size p = Some n -> A._base_addr p = Some a ->
  A._compute_layout p = (Ret tt, p).
Proof.
  destruct p as [v et es ba sz]. simpl. intros -> ->. reflexivity.
Qed.

(** X13.  Once the layout of a provider is resolved, [num_children] and
    [has_children] answer from the cached count and leave the provider as
    it is, whatever the inspected value would now say; and resolving a
    second time changes nothing. *)
Theorem X13_layout_cached {B : Builtins} :
  (forall p n a,
      V._size p = Some n -> V._data_addr p = Some a ->
      V.num_children p = (Ret n, p)
      /\ V.has_children p = (Ret (0 <? n), p))
  /\ (forall p,
      fst (V._compute_layout p) = Ret tt ->
      V._compute_layout (snd (V._compute_layout p))
      = (Ret tt, snd (V._compute_layout p)))
  /\ (forall p n a,
      A._size p = Some n -> A._base_addr p = Some a ->
      A.num_children p = (Ret n, p)
      /\ A.has_children p = (Ret (0 <? n), p))
  /\ (forall p,
      fst (A._compute_layout p) = Ret tt ->
      A._compute_layout (snd (A._compute_layout p))
      = (Ret tt, snd (A._compute_layout p))).
Proof.
  split; [|split; [|split]].
  - intros p n a Hn Ha.
    destruct (@StaticVectorFacts.vector_operations p p n a
                (vector_cached p Hn Ha) Hn Ha) as (H1 & H2 & _).
    split; assumption.
  - intros p Hl.
    destruct (StaticVectorFacts.vector_layout_done _ Hl) as (n & a & Hn & Ha).
    exact (vector_cached _ Hn Ha).
  - intros p n a Hn Ha.
    destruct (@StaticVectorFacts.adapter_operations B p p n a
                (adapter_cached p Hn Ha) Hn Ha) as (H1 & H2 & _).
    split; assumption.
  - intros p Hl.
    destruct (StaticVectorFacts.adapter_layout_done _ Hl) as (n & a & Hn & Ha).
    exact (adapter_cached _ Hn Ha).
Qed.

Lemma X13_layout_cached_witness :
  (V.num_children Variants.vector3_stale = (Ret 99, Variants.vector3_stale)
   /\ V.has_children Variants.vector3_stale = (Ret (0 <? 99), Variants.vector3_stale))
  /\ V._compute_layout (snd (V._compute_layout Examples.vector3_provider))
     = (Ret tt, snd (V._compute_layout Examples.vector3_provider)).
Proof.
  pose proof (@X13_layout_cached Host.plain) as (H1 & H2 & _).
  split.
  - exact (H1 Variants.vector3_stale 99 8192 eq_refl eq_refl).
  - exact (H2 Examples.vector3_provider eq_refl).
Defined.

(** **** [update] *)

Lemma vector_update_valobj p : V.valobj (snd (V.update p)) = V.valobj p.
Proof.
  unfold V.update, bindS, attr, lift, assign, id.
  destruct (_get_template_elem_type (V.valobj p)) as [t|e]; cbn; [|reflexivity].
  destruct (byte_size_or_zero t) as [z|e]; cbn; reflexivity.
Qed.

Lemma adapter_update_valobj p : A.valobj (snd (A.update p)) = A.valobj p.
Proof.
  unfold A.update, bindS, attr, lift, assign, id.
  destruct (_get_template_elem_type (A.valobj p)) as [t|e]; cbn; [|reflexivity].
  destruct (byte_size_or_zero t) as [z|e]; cbn; reflexivity.
Qed.

(** X14.  After [update], the count is read again from the inspected
    value: [num_children] is the count the value holds now, whatever
    count the provider had cached before. *)
Theorem X14_update_rereads {B : Builtins} :
  (forall p n,
      fst (V.update p) = Ret tt ->
      count_reads (V.valobj p) (lit "elementsCount") n ->
      fst (V._compute_layout (snd (V.update p))) = Ret tt ->
      fst (V.num_children (snd (V.update p))) = Ret n)
  /\ (forall p n,
      fst (A.update p) = Ret tt ->
      adapter_count_reads (A.valobj p) n ->
      fst (A._compute_layout (snd (A.update p))) = Ret tt ->
      fst (A.num_children (snd (A.update p))) = Ret n).
Proof.
  split; intros p n Hu Hc Hl.
  - pose proof (StaticVectorFacts.vector_update_fresh p Hu) as Hf.
    rewrite <- (vector_update_valobj p) in Hc.
    pose proof (StaticVectorFacts.vector_layout_count Hf Hc Hl) as Hn.
    destruct (StaticVectorFacts.vector_layout_done _ Hl) as (n' & a & _ & Ha).
    destruct (V._compute_layout (snd (V.update p))) as [r p'] eqn:E.
    simpl in *. subst r.
    destruct (@StaticVectorFacts.vector_operations _ p' n a E Hn Ha)
      as (-> & _). reflexivity.
  - pose proof (StaticVectorFacts.adapter_update_fresh p Hu) as Hf.
    rewrite <- (adapter_update_valobj p) in Hc.
    pose proof (StaticVectorFacts.adapter_layout_count Hf Hc Hl) as Hn.
    destruct (StaticVectorFacts.adapter_layout_done _ Hl) as (n' & a & _ & Ha).
    destruct (A._compute_layout (snd (A.update p))) as [r p'] eqn:E.
    simpl in *. subst r.
    destruct (@StaticVectorFacts.adapter_operations B _ p' n a E Hn Ha)
      as (-> & _). reflexivity.
Qed.

Lemma X14_update_rereads_witness :
  fst (V.num_children (snd (V.update Variants.vector3_stale))) = Ret 3
  /\ fst (A.num_children (B := Host.plain)
            (snd (A.update Variants.adapter3_stale))) = Ret 3.
Proof.
  split.
  - apply (proj1 (@X14_update_rereads Host.plain) Variants.vector3_stale 3).
    + reflexivity.
    + eexists; split; [reflexivity | left; split; reflexivity].
    + reflexivity.
  - apply (proj2 (@X14_update_rereads Host.plain) Variants.adapter3_stale 3).
    + reflexivity.
    + eexists; split; reflexivity.
    + reflexivity.
Defined.

(** X15.  An [update] that raises leaves the cached layout in place: the
    inspected value, the cached base address and the cached count are
    those of before. *)
Theorem X15_failed_update_keeps_cache :
  (forall p e,
      fst (V.update p) = Raise e ->
      V.valobj (snd (V.update p)) = V.valobj p
      /\ V._data_addr (snd (V.update p)) = V._data_addr p
      /\ V._size (snd (V.update p)) = V._size p)
  /\ (forall p e,
      fst (A.update p) = Raise e ->
      A.valobj (snd (A.update p)) = A.valobj p
      /\ A._base_addr (snd (A.update p)) = A._base_addr p
      /\ A._size (snd (A.update p)) = A._size p).
Proof.
  split; intros p e.
  - unfold V.update, bindS, attr, lift, assign, id.
    destruct (_get_template_elem_type (V.valobj p)) as [t|x]; cbn;
      [|intros _; repeat split].
    destruct (byte_size_or_zero t) as [z|x]; cbn; [discriminate|].
    intros _. repeat split.
  - unfold A.update, bindS, attr, lift, assign, id.
    destruct (_get_template_elem_type (A.valobj p)) as [t|x]; cbn;
      [|intros _; repeat split].
    destruct (byte_size_or_zero t) as [z|x]; cbn; [discriminate|].
    intros _. repeat split.
Qed.

Lemma X15_failed_update_keeps_cache_witness :
  V.valobj (snd (V.update Variants.vector_type_error_stale))
  = Variants.vector_type_error
  /\ V._data_addr (snd (V.update Variants.vector_type_error_stale)) = Some 8192
  /\ V._size (snd (V.update Variants.vector_type_error_stale)) = Some 99.
Proof.
  exact (proj1 X15_failed_update_keeps_cache
           Variants.vector_type_error_stale (lit "no type") eq_refl).
Defined.

(** **** Missing backing storage *)

(** X16.  A vector without a valid [arr] member, and an adapter without
    a valid [elements_] member, still report their count as the number of
    children, yet every child is absent: the base address is 0. *)
Theorem X16_no_backing_no_children {B : Builtins} :
  (forall p n,
      vector_fresh p ->
      count_reads (V.valobj p) (lit "elementsCount") n ->
      member_absent (V.valobj p) (lit "arr") ->
      (exists t, truthy_type (V._elem_type p) = Ret t) ->
      fst (V.num_children p) = Ret n
      /\ forall i, absent_child (fst (V.get_child_at_index i p)))
  /\ (forall p n,
      adapter_fresh p ->
      adapter_count_reads (A.valobj p) n ->
      member_absent (A.valobj p) (lit "elements_") ->
      (exists t, truthy_type (A._elem_type p) = Ret t) ->
      fst (A.num_children p) = Ret n
      /\ forall i, absent_child (fst (A.get_child_at_index i p))).
Proof.
  split; intros p n Hf Hc Ha [t Ht].
  - assert (E : V._compute_layout p
                = (Ret tt, V.set_data_addr (Some 0) (V.set_size (Some n) p))).
    { destruct p as [v et es da sz]. destruct Hf as [Hd Hs]. simpl in *.
      subst da sz.
      destruct (StaticVectorFacts.find_count Hc) as (szm & Hfc & Hu).
      unfold V._compute_layout, bindS, attr, lift, assign, retS; simpl.
      rewrite Hfc; simpl. rewrite Hu; simpl.
      rewrite (StaticVectorFacts.find_absent Ha). reflexivity. }
    destruct (@StaticVectorFacts.vector_operations p _ n 0 E eq_refl eq_refl)
      as (-> & _ & G).
    split; [reflexivity|]. intros i. rewrite G, Ht. unfold absent_child.
    cbn [fst py_not bind].
    destruct (i <? 0), (n <=? i), t; reflexivity.
  - assert (E : A._compute_layout p
                = (Ret tt, A.set_base_addr (Some 0) (A.set_size (Some n) p))).
    { destruct p as [v et es ba sz]. destruct Hf as [Hd Hs].
      destruct Hc as (szm & Hfc & Hu). simpl in *. subst ba sz.
      unfold A._compute_layout, bindS, attr, lift, assign, retS; simpl.
      rewrite Hfc; simpl. rewrite Hu; simpl.
      rewrite (StaticVectorFacts.find_absent Ha). reflexivity. }
    destruct (@StaticVectorFacts.adapter_operations B p _ n 0 E eq_refl eq_refl)
      as (-> & _ & G).
    split; [reflexivity|]. intros i. rewrite G, Ht. unfold absent_child.
    cbn [fst py_not bind].
    destruct (i <? 0), (n <=? i), t; reflexivity.
Qed.

Lemma X16_no_backing_no_children_witness :
  (fst (V.num_children Variants.vector_no_arr_provider) = Ret 3
   /\ forall i, absent_child
                  (fst (V.get_child_at_index i Variants.vector_no_arr_provider)))
  /\ (fst (A.num_children (B := Host.plain)
             Variants.adapter_no_pointer_provider) = Ret 3
      /\ forall i, absent_child
                     (fst (A.get_child_at_index (B := Host.plain) i
                             Variants.adapter_no_pointer_provider))).
Proof.
  split.
  - apply (proj1 (@X16_no_backing_no_children Host.plain)
             Variants.vector_no_arr_provider 3).
    + split; reflexivity.
    + eexists; split; [reflexivity | left; split; reflexivity].
    + eexists; split; reflexivity.
    + eexists; reflexivity.
  - apply (proj2 (@X16_no_backing_no_children Host.plain)
             Variants.adapter_no_pointer_provider 3).
    + split; reflexivity.
    + eexists; split; reflexivity.
    + eexists; split; reflexivity.
    + eexists; reflexivity.
Defined.

(** **** The value coercer *)

(** X17.  When a valid field dereferences to a valid value, the coercer
    returns the unsigned value of that referent; the text of the field
    and its own unsigned value play no part. *)
Theorem X17_dereference_first {B : Builtins} v d default z :
  Val.IsValid v = Ret true ->
  Val.Dereference v = Ret d ->
  Val.IsValid d = Ret true ->
  Val.GetValueAsUnsigned d default = Ret z ->
  _read_unsigned_value (Some v) default = Ret z.
Proof.
  intros Hv Hd Hdv Hz. unfold _read_unsigned_value.
  rewrite Hv. cbn [catch or_else py_not bind negb].
  rewrite StaticVectorFacts.deref_read_step.
  unfold step_dereference. rewrite Hd, Hdv, Hz. reflexivity.
Qed.

Lemma X17_dereference_first_witness :
  _read_unsigned_value (B := Host.plain)
    (Some (Variants.reference 5 140737488347136)) 0 = Ret 5.
Proof.
  apply (@X17_dereference_first Host.plain
           (Variants.reference 5 140737488347136)
           (Host.scalar 5 (Some (of_int 5)) 140737488347136) 0 5);
    reflexivity.
Defined.

(** X18.  When a valid field does not dereference to a valid value, its
    text decides before its unsigned value does: a text that is not
    hex-prefixed and that [int] parses gives the parsed number, and the
    unsigned accessor (or, when it raises, the default) is used when
    there is no text, when the text is blank, or when [int] rejects
    it. *)
Theorem X18_text_before_accessor {B : Builtins} v d default :
  Val.IsValid v = Ret true ->
  Val.Dereference v = Ret d ->
  Val.IsValid d = Ret false ->
  (forall s z,
      Val.GetValue v = Ret (Some s) ->
      strip s <> [] -> hex_prefixed (strip s) = false ->
      int_of_str (strip s) = Ret z ->
      _read_unsigned_value (Some v) default = Ret z)
  /\ ((Val.GetValue v = Ret None
       \/ (exists s, Val.GetValue v = Ret (Some s) /\ strip s = [])
       \/ (exists s x, Val.GetValue v = Ret (Some s) /\ strip s <> []
                       /\ hex_prefixed (strip s) = false
                       /\ int_of_str (strip s) = Raise x)) ->
      _read_unsigned_value (Some v) default
      = catch (Val.GetValueAsUnsigned v default) (fun _ => Ret default)).
Proof.
  intros Hv Hd Hdv.
  assert (Hstep : step_dereference v default = None)
    by (unfold step_dereference; rewrite Hd, Hdv; reflexivity).
  assert (Hshape : forall r,
    step_text v default = r ->
    _read_unsigned_value (Some v) default
    = match r with
      | Some z => Ret z
      | None => catch (Val.GetValueAsUnsigned v default) (fun _ => Ret default)
      end).
  { intros r <-. unfold _read_unsigned_value.
    rewrite Hv. cbn [catch or_else py_not bind negb].
    rewrite StaticVectorFacts.deref_read_step, Hstep. cbn [bind].
    rewrite StaticVectorFacts.parse_text_step. cbn [bind]. reflexivity. }
  split.
  - intros s z Hs Hne Hhex Hint. rewrite (Hshape (Some z)); [reflexivity|].
    unfold step_text. rewrite Hs. cbv zeta.
    destruct (strip s) as [|c r]; [congruence|].
    rewrite Hhex, Hint. reflexivity.
  - intros Hcase. rewrite (Hshape None); [reflexivity|].
    unfold step_text.
    destruct Hcase as [Hs | [(s & Hs & He) | (s & x & Hs & Hne & Hhex & Hint)]];
      rewrite Hs; [reflexivity | cbv zeta; rewrite He; reflexivity |].
    cbv zeta. destruct (strip s) as [|c r]; [congruence|].
    rewrite Hhex, Hint. reflexivity.
Qed.

Lemma X18_text_before_accessor_witness :
  _read_unsigned_value (B := Host.plain)
    (Some (Host.scalar 7 (Some (lit " -3 ")) 0)) 0 = Ret (-3)
  /\ _read_unsigned_value (B := Host.plain)
       (Some (Host.scalar 7 (Some (lit "seven")) 0)) 0
     = catch (Val.GetValueAsUnsigned (Host.scalar 7 (Some (lit "seven")) 0) 0)
         (fun _ => Ret 0).
Proof.
  split.
  - apply (proj1 (@X18_text_before_accessor Host.plain
                    (Host.scalar 7 (Some (lit " -3 ")) 0) SBValue_invalid 0
                    eq_refl eq_refl eq_refl) (lit " -3 ") (-3)).
    + reflexivity.
    + discriminate.
    + reflexivity.
    + reflexivity.
  - apply (proj2 (@X18_text_before_accessor Host.plain
                    (Host.scalar 7 (Some (lit "seven")) 0) SBValue_invalid 0
                    eq_refl eq_refl eq_refl)).
    right. right. exists (lit "seven"), (lit "ValueError").
    split; [reflexivity|]. split; [discriminate|]. split; reflexivity.
Defined.

(** **** Unreadable element type *)

(** X19.  When the type of the inspected value answers but its first
    template argument cannot be read, both providers are still built,
    with no element type and element size 0, and hand out no child. *)
Theorem X19_unreadable_template_argument {B : Builtins} valobj ty e :
  Val.GetType valobj = Ret ty ->
  Ty.GetTemplateArgumentType ty 0 = Raise e ->
  (V.__init__ valobj = Ret (V.mk valobj None 0 None None)
   /\ (fst (V._compute_layout (V.mk valobj None 0 None None)) = Ret tt ->
       forall i,
         absent_child
           (fst (V.get_child_at_index i (V.mk valobj None 0 None None)))))
  /\ (A.__init__ valobj = Ret (A.mk valobj None 0 None None)
      /\ (fst (A._compute_layout (A.mk valobj None 0 None None)) = Ret tt ->
          forall i,
            absent_child
              (fst (A.get_child_at_index i (A.mk valobj None 0 None None))))).
Proof.
  intros Ht He.
  assert (Hn : _get_template_elem_type valobj = Ret None)
    by (unfold _get_template_elem_type; rewrite Ht; cbn [bind]; rewrite He;
        reflexivity).
  split; split.
  - unfold V.__init__. rewrite Hn. reflexivity.
  - intros Hl. apply StaticVectorFacts.vector_unresolved_type_absent;
      [reflexivity | exact Hl].
  - unfold A.__init__. rewrite Hn. reflexivity.
  - intros Hl. apply StaticVectorFacts.adapter_zero_stride_absent;
      [reflexivity | exact Hl | exists false; reflexivity].
Qed.

Lemma X19_unreadable_template_argument_witness :
  V.__init__ Variants.vector_no_template
  = Ret (V.mk Variants.vector_no_template None 0 None None)
  /\ forall i,
       absent_child
         (fst (V.get_child_at_index i
                 (V.mk Variants.vector_no_template None 0 None None))).
Proof.
  destruct (@X19_unreadable_template_argument Host.plain
              Variants.vector_no_template
              (SBType_obj (Ret true) (Ret 0) (Ret None)
                 (fun _ => Raise (lit "no template argument"))
                 (fun _ => Ret 0))
              (lit "no template argument") eq_refl eq_refl)
    as [[H1 H2] _].
  split; [exact H1 | exact (H2 eq_refl)].
Defined.

End StaticVectorMore.
